(** * appcard: a shallow embedding of the ledger core of [src/app.py]

    The application is a Streamlit front end over a Postgres database.  The
    parts embedded here are the money codec ([br_money], [parse_brl]), the
    installment split ([_calc_valores_parcelas]), the balance queries
    ([saldo_conta_real], [previsao_receber_conta], [previsao_pagar_conta]),
    the statement queries and actions ([suggest_fatura_for_date], the
    "Salvar fatura" upsert, the "Fechamento" tab) and the collection-slip
    ("boleto") grouping and ungrouping.

    Python [float] and Postgres [float8] values are IEEE binary64 numbers.
    They are represented by their exact rational value ([Q]); every float
    operation is the exact rational operation followed by [Binary64.round],
    round-to-nearest-even onto the binary64 grid (subnormals included,
    overflow to infinity not modelled: all values here stay far below
    2^1024).  NUMERIC(14,2) columns hold exact cents ([Z]); dates are day
    numbers ([Z]), which preserves their order.  The database is a record of
    tables (lists of rows in storage order) with their id sequences; a page
    action is the feedback it shows and the list of transactions it commits,
    in order. *)

From Stdlib Require Import ZArith QArith List String Ascii Bool Lia.
Import ListNotations.

Open Scope Z_scope.

(** ** Binary64 arithmetic *)
Module Binary64.

(** Integer nearest to [p / q] ([q > 0]), ties to even. *)
Definition round_ne (p q : Z) : Z :=
  let k := p / q in
  let r := p mod q in
  if 2 * r <? q then k
  else if q <? 2 * r then k + 1
  else if Z.even k then k else k + 1.

(** [floor (log2 (a / d))] for [a, d > 0]. *)
Definition flog2 (a d : Z) : Z :=
  let k := Z.log2 a - Z.log2 d in
  if 0 <=? k then (if d * 2 ^ k <=? a then k else k - 1)
  else (if d <=? a * 2 ^ (- k) then k else k - 1).

(** Nearest binary64 value (53-bit significand, least exponent -1074). *)
Definition round (x : Q) : Q :=
  let n := Qnum x in
  let d := Zpos (Qden x) in
  if n =? 0 then 0%Q
  else
    let e := Z.max (flog2 (Z.abs n) d - 52) (-1074) in
    if 0 <=? e then Qmake (round_ne n (d * 2 ^ e) * 2 ^ e) 1
    else Qmake (round_ne (n * 2 ^ (- e)) d) (Z.to_pos (2 ^ (- e))).

Definition of_Z (z : Z) : Q := round (inject_Z z).
Definition add (x y : Q) : Q := round (x + y)%Q.
Definition sub (x y : Q) : Q := round (x - y)%Q.
Definition div (x y : Q) : Q := round (x / y)%Q.

(** Python's [round(x, 2)] on a finite float: the exact value rounded to
    two decimals, ties to even, read back as the nearest float. *)
Definition round2 (x : Q) : Q :=
  round (Qmake (round_ne (Qnum x * 100) (Zpos (Qden x))) 100).

(** Postgres' [numeric::float8]: the nearest float to an exact amount in
    cents. *)
Definition of_cents (c : Z) : Q := round (Qmake c 100).

End Binary64.

(** ** Money codec: [br_money] and [parse_brl] *)
Module Codec.

Definition str := list ascii.

Definition digit_char (n : Z) : ascii := ascii_of_nat (48 + Z.to_nat n).

Definition is_digit (c : ascii) : bool :=
  (48 <=? nat_of_ascii c)%nat && (nat_of_ascii c <=? 57)%nat.

Definition digit_val (c : ascii) : Z := Z.of_nat (nat_of_ascii c) - 48.

Fixpoint digits_aux (fuel : nat) (n : Z) (acc : str) : str :=
  match fuel with
  | O => acc
  | S f =>
      if n <? 10 then digit_char n :: acc
      else digits_aux f (n / 10) (digit_char (n mod 10) :: acc)
  end.

(** Decimal digits of [n >= 0], no leading zeros. *)
Definition digits (n : Z) : str := digits_aux (S (Z.to_nat (Z.log2 n))) n [].

(** The ',' thousands grouping of a reversed digit string. *)
Fixpoint group_rev (l : str) : str :=
  match l with
  | a :: b :: c :: ((_ :: _) as rest) => a :: b :: c :: ","%char :: group_rev rest
  | _ => l
  end.

Definition group3 (l : str) : str := rev (group_rev (rev l)).

Definition pad2 (l : str) : str :=
  match l with
  | [c] => ["0"%char; c]
  | _ => l
  end.

(** Python's [f"{x:,.2f}"]: the exact value of [x] rounded to cents (ties
    to even), with ',' grouping the integer digits by three. *)
Definition format_2f_grouped (x : Q) : str :=
  let r := Binary64.round_ne (Z.abs (Qnum x) * 100) (Zpos (Qden x)) in
  (if Qnum x <? 0 then ["-"%char] else [])
    ++ group3 (digits (r / 100)) ++ ["."%char] ++ pad2 (digits (r mod 100)).

(** [s.replace(a, b)] for single characters. *)
Definition replace_char (a b : ascii) (s : str) : str :=
  map (fun c => if Ascii.eqb c a then b else c) s.

(** [br_money]: the grouped text with its ',' and '.' swapped through the
    placeholder 'X' (three successive [str.replace] calls). *)
Definition br_money (v : Q) : str :=
  replace_char "X"%char "."%char
    (replace_char "."%char ","%char
       (replace_char ","%char "X"%char (format_2f_grouped v))).

(** Characters [str.strip()] removes (the ASCII ones). *)
Definition is_space (c : ascii) : bool :=
  let n := nat_of_ascii c in
  ((9 <=? n) && (n <=? 13))%nat || ((28 <=? n) && (n <=? 32))%nat.

Fixpoint drop_space (s : str) : str :=
  match s with
  | c :: r => if is_space c then drop_space r else s
  | [] => []
  end.

Definition strip (s : str) : str := rev (drop_space (rev (drop_space s))).

(** [t.replace("R$", "")]. *)
Fixpoint remove_rs (s : str) : str :=
  match s with
  | "R"%char :: "$"%char :: r => remove_rs r
  | c :: r => c :: remove_rs r
  | [] => []
  end.

Definition mem (a : ascii) (s : str) : bool := existsb (Ascii.eqb a) s.

(** The class [[\d,.\-]] of the [re.sub] call. *)
Definition brl_char (c : ascii) : bool :=
  is_digit c || Ascii.eqb c ","%char || Ascii.eqb c "."%char || Ascii.eqb c "-"%char.

Fixpoint span_digits (s : str) : str * str :=
  match s with
  | c :: r =>
      if is_digit c then let (d, rest) := span_digits r in (c :: d, rest)
      else ([], s)
  | [] => ([], [])
  end.

Definition digits_value (l : str) : Z :=
  fold_left (fun acc c => acc * 10 + digit_val c) l 0.

(** Python's [float(t)] on the strings [parse_brl] hands it, which are made
    of the characters [0-9 . -] only: an optional sign, then digits with at
    most one '.', at least one digit.  [None] is the [ValueError] case.
    (Exponents, inf/nan, underscores and surrounding blanks, which
    [float] also accepts, cannot occur in such strings.)  The sign: *)
Definition py_sign (t : str) : bool * str :=
  match t with
  | "-"%char :: r => (true, r)
  | "+"%char :: r => (false, r)
  | _ => (false, t)
  end.

(** The unsigned part: numerator and denominator of the decimal. *)
Definition py_decimal (body : str) : option (Z * positive) :=
  let '(ip, rest) := span_digits body in
  match rest with
  | [] => match ip with [] => None | _ => Some (digits_value ip, 1%positive) end
  | "."%char :: r =>
      let '(fp, rest2) := span_digits r in
      match rest2, ip, fp with
      | _ :: _, _, _ => None
      | [], [], [] => None
      | [], _, _ =>
          Some (digits_value ip * 10 ^ Z.of_nat (List.length fp) + digits_value fp,
                Z.to_pos (10 ^ Z.of_nat (List.length fp)))
      end
  | _ => None
  end.

Definition py_float (t : str) : option Q :=
  let '(neg, body) := py_sign t in
  match py_decimal body with
  | Some (n, d) => Some (Binary64.round (Qmake (if neg then - n else n) d))
  | None => None
  end.

(** The Python values [parse_brl] is called with. *)
Inductive pyval :=
| PyNone
| PyInt (z : Z)
| PyFloat (x : Q)
| PyStr (s : str).

(** The text [parse_brl] passes to [float], from a non-blank string. *)
Definition brl_text (s : str) : str :=
  let t := strip (remove_rs (strip s)) in
  let t := filter brl_char t in
  if mem ","%char t && mem "."%char t then
    replace_char ","%char "."%char (filter (fun c => negb (Ascii.eqb c "."%char)) t)
  else if mem ","%char t then replace_char ","%char "."%char t
  else t.

Definition parse_brl (s : pyval) : Q :=
  match s with
  | PyNone => 0%Q
  | PyInt z => Binary64.of_Z z
  | PyFloat x => x
  | PyStr s =>
      match strip s with
      | [] => 0%Q
      | _ =>
          match py_float (brl_text s) with
          | Some x => x
          | None => 0%Q
          end
      end
  end.


(** *** Other [str] methods the pages use *)

(** [s.split(c)] with a one-character separator: the pieces between the
    separators, [[""]] for the empty string. *)
Fixpoint split_on (c : ascii) (s : str) : list str :=
  match s with
  | [] => [[]]
  | x :: r =>
      if Ascii.eqb x c then [] :: split_on c r
      else match split_on c r with
           | p :: ps => (x :: p) :: ps
           | [] => [[x]]
           end
  end.

(** [s.split(c, 1)] on a string that contains [c]: the text before the
    first [c] and the text after it. *)
Fixpoint split_first (c : ascii) (s : str) : str * str :=
  match s with
  | [] => ([], [])
  | x :: r =>
      if Ascii.eqb x c then ([], r)
      else let (u, p) := split_first c r in (x :: u, p)
  end.

(** [s.isdigit()]: non-empty and made of digits only. *)
Definition isdigit (s : str) : bool :=
  match s with
  | [] => false
  | _ => forallb is_digit s
  end.

(** [==] on strings. *)
Definition str_eqb (a b : str) : bool :=
  if list_eq_dec ascii_dec a b then true else false.

(** [sep.join(parts)]. *)
Fixpoint join (sep : str) (parts : list str) : str :=
  match parts with
  | [] => []
  | [p] => p
  | p :: ps => p ++ sep ++ join sep ps
  end.

End Codec.

(** ** Installment split: [_calc_valores_parcelas] *)
(** ** Login: [_parse_users] and [require_login] *)
Module Login.
Import Codec.

(** A Python [dict] with string keys and values, in insertion order. *)
Definition dict := list (str * str).

(** [d[k] = v]: a present key keeps its place and gets the new value. *)
Definition dict_set (k v : str) (d : dict) : dict :=
  if existsb (fun e => str_eqb (fst e) k) d
  then map (fun e => if str_eqb (fst e) k then (k, v) else e) d
  else d ++ [(k, v)].

(** [d.get(k)]. *)
Definition dict_get (k : str) (d : dict) : option str :=
  match find (fun e => str_eqb (fst e) k) d with
  | Some e => Some (snd e)
  | None => None
  end.

Section Users.

(** [_sha256]: the hex digest of the UTF-8 bytes of a string. *)
Variable _sha256 : str -> str.

(** One iteration of the loop of [_parse_users]. *)
Definition parse_part (users : dict) (part0 : str) : dict :=
  let part := strip part0 in
  if match part with [] => true | _ => false end || negb (mem ":"%char part) then users
  else
    let (u0, p0) := split_first ":"%char part in
    let u := strip u0 in
    let p := strip p0 in
    match u, p with
    | _ :: _, _ :: _ => dict_set u (_sha256 p) users
    | _, _ => users
    end.

(** [_parse_users(raw)] ([raw] is [os.getenv("APP_USERS", "")], never
    [None]). *)
Definition _parse_users (raw : str) : dict :=
  fold_left parse_part (split_on ";"%char (strip raw)) [].

(** What [require_login] does when "Entrar" is pressed with the user name
    [u] and the password [p] typed: stop with the configuration error,
    accept (and record the stripped user name), or refuse. *)
Inductive login_result := NaoConfigurado | Aceito (user : str) | Recusado.

Definition require_login (raw u p : str) : login_result :=
  let users := _parse_users raw in
  match users with
  | [] => NaoConfigurado
  | _ =>
      let u := strip u in
      match dict_get u users with
      | Some h => if str_eqb h (_sha256 p) then Aceito u else Recusado
      | None => Recusado
      end
  end.

End Users.

(** The [APP_USERS] text for a list of [(user, password)] entries:
    ["u1:p1;u2:p2;..."]. *)
Definition app_users_text (entries : list (str * str)) : str :=
  join [";"%char] (map (fun e => fst e ++ ":"%char :: snd e) entries).

(** The password of the last entry for [u]. *)
Definition last_pass (u : str) (entries : list (str * str)) : option str :=
  fold_left (fun acc e => if str_eqb (fst e) u then Some (snd e) else acc) entries None.

(** Text whose first and last characters are not blanks. *)
Definition first_ok (s : str) : Prop := exists c r, s = c :: r /\ is_space c = false.
Definition last_ok (s : str) : Prop := exists r c, s = r ++ [c] /\ is_space c = false.

(** An entry the text [app_users_text] renders faithfully: a non-empty
    stripped user name without ':' or ';', and a non-empty stripped
    password without ';' (it may contain ':'). *)
Definition well_formed (e : str * str) : Prop :=
  fst e <> [] /\ strip (fst e) = fst e /\ ~ In ":"%char (fst e) /\ ~ In ";"%char (fst e) /\
  snd e <> [] /\ strip (snd e) = snd e /\ ~ In ";"%char (snd e).

Definition piece (e : str * str) : str := fst e ++ ":"%char :: snd e.

End Login.

Module Parcelas.

(** Python's [sum] over floats: left to right from the integer [0]
    ([0 + x] is [x] exactly). *)
Definition py_sum (l : list Q) : Q := fold_left Binary64.add l 0%Q.

(** [vals[-1] = x] on a non-empty list. *)
Definition set_last (l : list Q) (x : Q) : list Q := removelast l ++ [x].

Definition _calc_valores_parcelas (v_in : Q) (n : Z) (modo : string) : list Q :=
  if n <=? 1 then [Binary64.round2 v_in]
  else if String.eqb modo "Total" then
    let base := Binary64.round2 (Binary64.div v_in (Binary64.of_Z n)) in
    let vals := repeat base (Z.to_nat n) in
    set_last vals
      (Binary64.round2 (Binary64.add (last vals 0%Q) (Binary64.sub v_in (py_sum vals))))
  else repeat (Binary64.round2 v_in) (Z.to_nat n).

(** Exact (rational) sum of a list of floats. *)
Definition exact_sum (l : list Q) : Q := fold_right Qplus 0%Q l.

End Parcelas.

(** ** Conversions between Python floats and NUMERIC(14,2) *)
Module Numeric.

(** [a / d >= 10 ^ e], for [a, d > 0]. *)
Definition ge_pow10 (a d e : Z) : bool :=
  if 0 <=? e then d * 10 ^ e <=? a else d <=? a * 10 ^ (- e).

Fixpoint log10_down (fuel : nat) (a d e : Z) : Z :=
  match fuel with
  | O => e
  | S f => if ge_pow10 a d e then e else log10_down f a d (e - 1)
  end.

Fixpoint log10_up (fuel : nat) (a d e : Z) : Z :=
  match fuel with
  | O => e
  | S f => if ge_pow10 a d (e + 1) then log10_up f a d (e + 1) else e
  end.

(** [floor (log10 (a / d))] for [a, d > 0] and [a / d] a finite float,
    from the estimate [floor (log2 (a / d)) * 3 / 10]. *)
Definition flog10 (a d : Z) : Z :=
  let e0 := Binary64.flog2 a d * 3 / 10 + 1 in
  log10_up 10 a d (log10_down 10 a d e0).

Definition scale10 (m e : Z) : Q :=
  if 0 <=? e then inject_Z (m * 10 ^ e) else Qmake m (Z.to_pos (10 ^ (- e))).

(** The decimals with [p] significant digits around [x > 0] that read back
    as [x], nearest first. *)
Definition repr_candidates (x : Q) (p : Z) : list Q :=
  let a := Qnum x in
  let d := Zpos (Qden x) in
  let s := flog10 a d - p + 1 in
  let lo := if 0 <=? s then a / (d * 10 ^ s) else a * 10 ^ (- s) / d in
  let c1 := scale10 lo s in
  let c2 := scale10 (lo + 1) s in
  let ok c := Qeq_bool (Binary64.round c) x in
  let near1 := Qle_bool (x - c1) (c2 - x) in
  filter ok (if near1 then [c1; c2] else [c2; c1]).

Fixpoint repr_search (fuel : nat) (x : Q) (p : Z) : Q :=
  match fuel with
  | O => x
  | S f =>
      match repr_candidates x p with
      | c :: _ => c
      | [] => repr_search f x (p + 1)
      end
  end.

(** The value of Python's [repr(x)]: the shortest decimal that reads back
    as [x] (at most 17 significant digits), the nearest one among those. *)
Definition py_repr_value (x : Q) : Q :=
  if Qnum x =? 0 then 0%Q
  else if Qnum x <? 0 then - repr_search 17 (- x) 1
  else repr_search 17 x 1.

(** Integer nearest to [p / q] ([q > 0]), ties away from zero (Postgres'
    numeric rounding). *)
Definition round_half_away (p q : Z) : Z :=
  let k := Z.abs p / q in
  let r := Z.abs p mod q in
  let m := if q <=? 2 * r then k + 1 else k in
  if p <? 0 then - m else m.

(** A Python float written into a NUMERIC(14,2) column: psycopg2 sends
    [repr(x)], Postgres rounds it to cents. *)
Definition to_numeric2 (x : Q) : Z :=
  let v := py_repr_value x in
  round_half_away (Qnum v * 100) (Zpos (Qden v)).

(** NUMERIC(14,2) keeps at most 12 digits before the point: a rounded
    value of [10^12] or more in absolute value raises "numeric field
    overflow". *)
Definition fits_numeric2 (c : Z) : bool := Z.abs c <? 10 ^ 14.

End Numeric.

(** ** The database and the page actions *)
(** ** Calendar: [relativedelta(months=i)] on day numbers *)
Module Calendar.

(** Day numbers count days from 1970-01-01 in the proleptic Gregorian
    calendar; these are the usual conversions to and from (year, month,
    day). *)
Definition days_from_civil (y m dd : Z) : Z :=
  let y := if m <=? 2 then y - 1 else y in
  let era := y / 400 in
  let yoe := y - era * 400 in
  let doy := (153 * (if 2 <? m then m - 3 else m + 9) + 2) / 5 + dd - 1 in
  let doe := yoe * 365 + yoe / 4 - yoe / 100 + doy in
  era * 146097 + doe - 719468.

Definition civil_from_days (z : Z) : Z * Z * Z :=
  let z := z + 719468 in
  let era := z / 146097 in
  let doe := z - era * 146097 in
  let yoe := (doe - doe / 1460 + doe / 36524 - doe / 146096) / 365 in
  let y := yoe + era * 400 in
  let doy := doe - (365 * yoe + yoe / 4 - yoe / 100) in
  let mp := (5 * doy + 2) / 153 in
  let dd := doy - (153 * mp + 2) / 5 + 1 in
  let m := if mp <? 10 then mp + 3 else mp - 9 in
  (if m <=? 2 then y + 1 else y, m, dd).

Definition is_leap (y : Z) : bool :=
  (y mod 4 =? 0) && (negb (y mod 100 =? 0) || (y mod 400 =? 0)).

(** [calendar.monthrange(y, m)[1]]. *)
Definition days_in_month (y m : Z) : Z :=
  if m =? 2 then (if is_leap y then 29 else 28)
  else if (m =? 4) || (m =? 6) || (m =? 9) || (m =? 11) then 30
  else 31.

(** [d + relativedelta(months=k)]: the same day [k] months later, clipped
    to the last day of the target month. *)
Definition add_months (d k : Z) : Z :=
  let '(y, m, dd) := civil_from_days d in
  let t := m - 1 + k in
  let y' := y + t / 12 in
  let m' := t mod 12 + 1 in
  days_from_civil y' m' (Z.min dd (days_in_month y' m')).

End Calendar.

Module Ledger.

(** Rows of the tables created by [init_db] ([created_at] omitted).
    Money columns are NUMERIC(14,2), in cents; DATE columns are day
    numbers. *)
Record conta := mk_conta {
  conta_id : Z; conta_nome : string; conta_tipo : string;
  conta_ativo : bool; conta_saldo_inicial : Z }.

Record categoria := mk_categoria {
  categoria_id : Z; categoria_nome : string; categoria_ativo : bool }.

Record fatura := mk_fatura {
  fat_id : Z; fat_conta_id : Z; fat_competencia : Z;
  fat_dt_inicio : Z; fat_dt_fim : Z; fat_dt_fechamento : Z; fat_dt_vencimento : Z;
  fat_status : string }.

Record lancamento := mk_lancamento {
  lanc_id : Z; lanc_tipo : string; lanc_descricao : string; lanc_valor : Z;
  lanc_dt_competencia : Z; lanc_dt_liquidacao : option Z; lanc_conta_id : Z;
  lanc_fatura_id : option Z; lanc_categoria_id : option Z;
  lanc_forma_pagamento : option string; lanc_status : option string;
  lanc_prestacao : option string }.

Record pagamento_fatura := mk_pagamento {
  pag_id : Z; pag_fatura_id : Z; pag_lancamento_saida_id : Z;
  pag_dt_pagamento : Z; pag_valor : Z }.

(** A database state: the tables in storage order, and the last value
    handed out by each BIGSERIAL sequence. *)
Record db := mk_db {
  contas : list conta; categorias : list categoria; faturas : list fatura;
  lancamentos : list lancamento; pagamentos_fatura : list pagamento_fatura;
  seq_faturas : Z; seq_lancamentos : Z; seq_pagamentos : Z }.

Definition set_faturas (d : db) (fs : list fatura) (seq : Z) : db :=
  mk_db (contas d) (categorias d) fs (lancamentos d) (pagamentos_fatura d)
        seq (seq_lancamentos d) (seq_pagamentos d).

Definition set_lancamentos (d : db) (ls : list lancamento) (seq : Z) : db :=
  mk_db (contas d) (categorias d) (faturas d) ls (pagamentos_fatura d)
        (seq_faturas d) seq (seq_pagamentos d).

Definition set_pagamentos (d : db) (ps : list pagamento_fatura) (seq : Z) : db :=
  mk_db (contas d) (categorias d) (faturas d) (lancamentos d) ps
        (seq_faturas d) (seq_lancamentos d) seq.

(** *** SQL helpers *)

Definition lower_ascii (c : ascii) : ascii :=
  let n := nat_of_ascii c in
  if ((65 <=? n) && (n <=? 90))%nat then ascii_of_nat (n + 32) else c.

Definition lower (s : string) : string :=
  string_of_list_ascii (map lower_ascii (list_ascii_of_string s)).

(** [s ILIKE pat] for a pattern without wildcards or escapes. *)
Definition ilike (s pat : string) : bool := String.eqb (lower s) (lower pat).

(** [COALESCE(l.status, 'Pendente')]. *)
Definition status_or_pendente (l : lancamento) : string :=
  match lanc_status l with Some s => s | None => "Pendente" end.

(** [col = 'text']: false on NULL. *)
Definition opt_eqb (o : option string) (s : string) : bool :=
  match o with Some t => String.eqb t s | None => false end.

Definition sum_cents (l : list Z) : Z := fold_right Z.add 0 l.

Definition find_conta (d : db) (nome : string) : option conta :=
  find (fun c => String.eqb (conta_nome c) nome) (contas d).

Definition lancamentos_da_conta (d : db) (c : conta) : list lancamento :=
  filter (fun l => lanc_conta_id l =? conta_id c) (lancamentos d).

(** *** Balances *)

(** The two CASE conditions of [saldo_conta_real]. *)
Definition receita_liquidada (l : lancamento) : bool :=
  String.eqb (lanc_tipo l) "RECEITA"
  && (ilike (status_or_pendente l) "recebido"
      || match lanc_dt_liquidacao l with Some _ => true | None => false end).

Definition despesa_liquidada (l : lancamento) : bool :=
  String.eqb (lanc_tipo l) "DESPESA"
  && (ilike (status_or_pendente l) "pago"
      || match lanc_dt_liquidacao l with Some _ => true | None => false end).

(** [saldo_conta_real]: [saldo_inicial::float8 + SUM(...)::float8 -
    SUM(...)::float8] over the LEFT JOIN; [0.0] when no account has the
    name. *)
Definition saldo_conta_real (d : db) (conta_nome : string) : Q :=
  match find_conta d conta_nome with
  | None => 0%Q
  | Some c =>
      let ls := lancamentos_da_conta d c in
      Binary64.sub
        (Binary64.add (Binary64.of_cents (conta_saldo_inicial c))
           (Binary64.of_cents
              (sum_cents (map (fun l => if receita_liquidada l then lanc_valor l else 0) ls))))
        (Binary64.of_cents
           (sum_cents (map (fun l => if despesa_liquidada l then lanc_valor l else 0) ls)))
  end.

Definition previsao_tipo (tipo : string) (d : db) (conta_nome : string) : Q :=
  match find_conta d conta_nome with
  | None => 0%Q
  | Some c =>
      Binary64.of_cents (sum_cents (map lanc_valor
        (filter (fun l => String.eqb (lanc_tipo l) tipo
                          && ilike (status_or_pendente l) "pendente")
           (lancamentos_da_conta d c))))
  end.

Definition previsao_receber_conta (d : db) (conta_nome : string) : Q :=
  previsao_tipo "RECEITA" d conta_nome.

Definition previsao_pagar_conta (d : db) (conta_nome : string) : Q :=
  previsao_tipo "DESPESA" d conta_nome.

(** *** Statements *)

Definition covers (cartao_id dt : Z) (f : fatura) : bool :=
  (fat_conta_id f =? cartao_id) && (fat_dt_inicio f <=? dt) && (dt <=? fat_dt_fim f).

(** [ORDER BY dt_fim DESC LIMIT 1]: a row with the greatest [dt_fim]
    (Postgres returns ties in no specified order; this takes the first in
    storage order). *)
Definition fim_step (acc : option fatura) (f : fatura) : option fatura :=
  match acc with
  | None => Some f
  | Some b => if fat_dt_fim b <? fat_dt_fim f then Some f else acc
  end.

Definition first_max_fim (l : list fatura) : option fatura := fold_left fim_step l None.

Definition suggest_fatura_for_date (d : db) (cartao_id dt : Z) : option Z :=
  match first_max_fim (filter (covers cartao_id dt) (faturas d)) with
  | Some f => Some (fat_id f)
  | None => None
  end.

(** The "Salvar fatura" button: [INSERT ... ON CONFLICT (conta_id,
    competencia) DO UPDATE] of the four dates.  [competencia] is the
    first day of the month chosen on the page.  The [BIGSERIAL] default is
    drawn before the conflict is detected, so the sequence advances in
    both cases. *)
Definition same_key (cartao_id competencia : Z) (f : fatura) : bool :=
  (fat_conta_id f =? cartao_id) && (fat_competencia f =? competencia).

Definition set_datas (ini fim fech venc : Z) (f : fatura) : fatura :=
  mk_fatura (fat_id f) (fat_conta_id f) (fat_competencia f) ini fim fech venc (fat_status f).

Definition f_save (d : db) (cartao_id competencia dt_inicio dt_fim dt_fech dt_venc : Z)
  : (string + db)%type :=
  if dt_fim <? dt_inicio then inl "Início não pode ser maior que Fim."%string
  else
    let nid := seq_faturas d + 1 in
    if existsb (same_key cartao_id competencia) (faturas d) then
      inr (set_faturas d
             (map (fun f => if same_key cartao_id competencia f
                            then set_datas dt_inicio dt_fim dt_fech dt_venc f else f)
                  (faturas d)) nid)
    else
      inr (set_faturas d
             (faturas d ++ [mk_fatura nid cartao_id competencia dt_inicio dt_fim
                                      dt_fech dt_venc "ABERTA"]) nid).

(** *** Transactions and page actions *)

(** A database transaction: all of its statements take effect, or it is
    rolled back ([None]) when a statement violates a constraint. *)
Definition txn := db -> option db.

(** The states a page action commits when it runs its transactions one
    after the other ([fetch_one], [exec_sql] and [with get_conn()] each
    commit on exit).  A failed statement raises, which stops the script. *)
Fixpoint committed (d : db) (ts : list txn) : list db :=
  match ts with
  | [] => []
  | t :: r => match t d with Some d' => d' :: committed d' r | None => [] end
  end.

(** The state after the action. *)
Definition run (d : db) (ts : list txn) : db := last (committed d ts) d.

(** What the page shows: [st.error], [st.warning], or nothing (the action
    goes on to its writes). *)
Inductive feedback := Ok | Warning (msg : string) | Erro (msg : string).

(** [str(n)] for an id [n >= 1]. *)
Definition z_to_string (n : Z) : string := string_of_list_ascii (Codec.digits n).

(** [UPDATE faturas SET status=st WHERE id=fid]. *)
Definition set_fatura_status (fid : Z) (st : string) (f : fatura) : fatura :=
  if fat_id f =? fid
  then mk_fatura (fat_id f) (fat_conta_id f) (fat_competencia f) (fat_dt_inicio f)
         (fat_dt_fim f) (fat_dt_fechamento f) (fat_dt_vencimento f) st
  else f.

Definition update_fatura_status (fid : Z) (st : string) (d : db) : db :=
  set_faturas d (map (set_fatura_status fid st) (faturas d)) (seq_faturas d).

(** [INSERT INTO lancamentos] of a row whose id is the next sequence value.
    The account and category come from lookups of existing rows; the
    NUMERIC(14,2) range and the CHECK on [valor] are tested. *)
Definition insert_lancamento (l : lancamento) : txn := fun d =>
  if negb (Numeric.fits_numeric2 (lanc_valor l)) then None
  else if lanc_valor l <? 0 then None
  else Some (set_lancamentos d (lancamentos d ++ [l]) (lanc_id l)).

(** [UPDATE lancamentos SET ... WHERE p]. *)
Definition update_lancamentos (p : lancamento -> bool) (f : lancamento -> lancamento) : txn :=
  fun d => Some (set_lancamentos d (map (fun l => if p l then f l else l) (lancamentos d))
                                 (seq_lancamentos d)).

(** [DELETE FROM lancamentos WHERE p]; refused when a payment row still
    references a deleted row. *)
Definition delete_lancamentos (p : lancamento -> bool) : txn := fun d =>
  if existsb (fun pg => existsb (fun l => p l && (lanc_id l =? pag_lancamento_saida_id pg))
                                (lancamentos d))
             (pagamentos_fatura d)
  then None
  else Some (set_lancamentos d (filter (fun l => negb (p l)) (lancamentos d))
                             (seq_lancamentos d)).

(** **** Fechamento tab *)

(** [ORDER BY f.competencia DESC, c.nome ASC] on the rows of one card, where
    the second key is constant (rows with equal [competencia] are kept in an
    unspecified order, here reversed). *)
Fixpoint insert_desc (f : fatura) (l : list fatura) : list fatura :=
  match l with
  | [] => [f]
  | g :: r => if fat_competencia g <? fat_competencia f then f :: l else g :: insert_desc f r
  end.

Definition list_faturas (d : db) (cartao_id : Z) : list fatura :=
  fold_right insert_desc [] (filter (fun f => fat_conta_id f =? cartao_id) (faturas d)).

(** The options of the "Fatura" select box: [(int(r.name), r["status"])]
    for each row of [dff].  [pd.read_sql_query] returns a frame with the
    default index, so [r.name] is the row's position 0, 1, 2, .... *)
Definition fechamento_opts (dff : list fatura) : list (Z * string) :=
  combine (map Z.of_nat (List.seq 0 (List.length dff))) (map fat_status dff).

Inductive acao :=
  | Fechar
  | Abrir
  (** [Pagar dt_pg valor_pg_txt desc]: the payment date, the text of the
      amount field, and the description the page builds from the card's
      name and the billing month. *)
  | Pagar (dt_pg : Z) (valor_pg_txt : Codec.str) (desc : string).

Definition find_cora (d : db) : option conta :=
  find (fun c => String.eqb (conta_nome c) "Cora" && conta_ativo c) (contas d).

Definition find_categoria (d : db) (nome : string) : option Z :=
  match find (fun c => String.eqb (categoria_nome c) nome) (categorias d) with
  | Some c => Some (categoria_id c)
  | None => None
  end.

(** The payment transaction: the three statements inside one
    [with get_conn() as conn: ... conn.commit()].  The payment insert checks
    the foreign key to [faturas] and the UNIQUE [fatura_id]. *)
Definition pagar_txn (fatura_id cora_id : Z) (cat_id : option Z) (desc : string)
    (dt_pg valor : Z) : txn := fun d =>
  let lid := seq_lancamentos d + 1 in
  let pid := seq_pagamentos d + 1 in
  let l := mk_lancamento lid "DESPESA" desc valor dt_pg (Some dt_pg) cora_id None cat_id
             (Some "Transferência"%string) (Some "Pago"%string) None in
  match insert_lancamento l d with
  | None => None
  | Some d1 =>
      if negb (existsb (fun f => fat_id f =? fatura_id) (faturas d1)) then None
      else if existsb (fun p => pag_fatura_id p =? fatura_id) (pagamentos_fatura d1) then None
      else if valor <? 0 then None
      else
        let d2 := set_pagamentos d1
                    (pagamentos_fatura d1 ++ [mk_pagamento pid fatura_id lid dt_pg valor]) pid in
        Some (update_fatura_status fatura_id "PAGA" d2)
  end.

(** One run of the Fechamento tab for card [cartao_id], with option
    [choice] selected and one button pressed: the feedback shown and the
    transactions committed. *)
Definition fechamento (d : db) (cartao_id : Z) (choice : nat) (a : acao)
  : feedback * list txn :=
  let dff := list_faturas d cartao_id in
  match nth_error (fechamento_opts dff) choice with
  | None => (Warning "Cadastre faturas para esse cartão.", [])
  | Some (fatura_id, status_fat) =>
      match a with
      | Fechar =>
          if String.eqb status_fat "PAGA" then (Warning "Já está PAGA.", [])
          else (Ok, [fun d => Some (update_fatura_status fatura_id "FECHADA" d)])
      | Abrir =>
          if String.eqb status_fat "PAGA" then (Warning "Já está PAGA.", [])
          else (Ok, [fun d => Some (update_fatura_status fatura_id "ABERTA" d)])
      | Pagar dt_pg valor_pg_txt desc =>
          match find_cora d with
          | None => (Erro "Conta 'Cora' não encontrada.", [])
          | Some cora =>
              if String.eqb status_fat "PAGA" then (Warning "Fatura já está paga.", [])
              else
                let valor_pg := Codec.parse_brl (Codec.PyStr valor_pg_txt) in
                if Qle_bool valor_pg 0 then (Erro "Valor pago inválido.", [])
                else
                  (Ok, [pagar_txn fatura_id (conta_id cora)
                          (find_categoria d "Pagamento de Fatura") desc dt_pg
                          (Numeric.to_numeric2 valor_pg)])
          end
      end
  end.

(** **** Boletos tab *)

Definition boleto_tag (bid : Z) : string := ("Boleto:" ++ z_to_string bid)%string.

Definition set_status_forma (st fp : option string) (l : lancamento) : lancamento :=
  mk_lancamento (lanc_id l) (lanc_tipo l) (lanc_descricao l) (lanc_valor l)
    (lanc_dt_competencia l) (lanc_dt_liquidacao l) (lanc_conta_id l) (lanc_fatura_id l)
    (lanc_categoria_id l) fp st (lanc_prestacao l).

(** "Gerar boleto com selecionados": [ids] are the selected rows' ids and
    [total] the float sum of their [valor::float8] column.  The slip is
    inserted by [fetch_one] (one commit), then the selected rows are tagged
    by [exec_sql] (a second commit). *)
Definition bol_gerar (d : db) (ids : list Z) (total : Q) (desc : string)
    (venc conta_id : Z) (cat_id : option Z) : feedback * list txn :=
  match ids with
  | [] => (Erro "Marque pelo menos uma receita.", [])
  | _ =>
      if Qle_bool total 0 then (Erro "Total inválido.", [])
      else
        let boleto_id := seq_lancamentos d + 1 in
        (Ok, [insert_lancamento
                (mk_lancamento boleto_id "RECEITA" desc (Numeric.to_numeric2 total) venc None
                   conta_id None cat_id (Some "Boleto"%string) (Some "Pendente"%string) None);
              update_lancamentos (fun l => existsb (Z.eqb (lanc_id l)) ids)
                (set_status_forma (Some "Agrupada"%string) (Some (boleto_tag boleto_id)))])
  end.

(** The children's reset and the slip's deletion of "Desagrupar". *)
Definition is_child (bid : Z) (l : lancamento) : bool :=
  opt_eqb (lanc_forma_pagamento l) (boleto_tag bid).

Definition is_slip (bid : Z) (l : lancamento) : bool :=
  (lanc_id l =? bid) && String.eqb (lanc_tipo l) "RECEITA"
  && opt_eqb (lanc_forma_pagamento l) "Boleto".

Definition reset_child (l : lancamento) : lancamento :=
  set_status_forma (Some "Pendente"%string) None l.

(** "Desagrupar": two [exec_sql] calls, two commits. *)
Definition bol_desagrupar (confirm : bool) (bid : Z) : feedback * list txn :=
  if negb confirm then (Erro "Marque a confirmação.", [])
  else (Ok, [update_lancamentos (is_child bid) reset_child;
             delete_lancamentos (is_slip bid)]).

End Ledger.

(** ** Sample databases *)
(** ** The other page actions of [src/app.py] *)
Module Pages.
Import Ledger.

Definition set_contas (d : db) (cs : list conta) : db :=
  mk_db cs (categorias d) (faturas d) (lancamentos d) (pagamentos_fatura d)
        (seq_faturas d) (seq_lancamentos d) (seq_pagamentos d).

Definition set_categorias (d : db) (cs : list categoria) : db :=
  mk_db (contas d) cs (faturas d) (lancamentos d) (pagamentos_fatura d)
        (seq_faturas d) (seq_lancamentos d) (seq_pagamentos d).

(** [col = n] on a nullable BIGINT column: false on NULL. *)
Definition opt_Zeqb (o : option Z) (n : Z) : bool :=
  match o with Some m => m =? n | None => false end.

(** Python's [x or None] on a string. *)
Definition py_or_none (s : string) : option string :=
  if String.eqb s "" then None else Some s.

(** [str.strip()] on a [string]. *)
Definition strip_string (s : string) : string :=
  string_of_list_ascii (Codec.strip (list_ascii_of_string s)).

(** *** [total_fatura] *)

(** [COALESCE(SUM(valor),0)::float8] over the expenses of the statement. *)
Definition total_fatura (d : db) (fatura_id : Z) : Q :=
  Binary64.of_cents
    (sum_cents (map lanc_valor
       (filter (fun l => opt_Zeqb (lanc_fatura_id l) fatura_id
                         && String.eqb (lanc_tipo l) "DESPESA") (lancamentos d)))).

(** The two sums of [saldo_conta_real], for the account row [c]. *)
Definition receitas_liquidadas (d : db) (c : conta) : Z :=
  sum_cents (map (fun l => if receita_liquidada l then lanc_valor l else 0)
                 (lancamentos_da_conta d c)).

Definition despesas_liquidadas (d : db) (c : conta) : Z :=
  sum_cents (map (fun l => if despesa_liquidada l then lanc_valor l else 0)
                 (lancamentos_da_conta d c)).

(** *** Header: "Próxima fatura" *)

(** [WHERE f.status IN ('ABERTA','FECHADA') ORDER BY f.dt_vencimento ASC]
    over the join with [contas]; the page shows the first row (ties come
    in no specified order; this takes the first in storage order). *)
Definition a_pagar (d : db) (f : fatura) : bool :=
  (String.eqb (fat_status f) "ABERTA" || String.eqb (fat_status f) "FECHADA")
  && existsb (fun c => conta_id c =? fat_conta_id f) (contas d).

Definition venc_step (acc : option fatura) (f : fatura) : option fatura :=
  match acc with
  | None => Some f
  | Some b => if fat_dt_vencimento f <? fat_dt_vencimento b then Some f else acc
  end.

Definition proxima_fatura (d : db) : option fatura :=
  fold_left venc_step (filter (a_pagar d) (faturas d)) None.

(** *** Contas tab: "Adicionar" *)

(** [INSERT INTO contas ... ON CONFLICT (nome) DO NOTHING]; [nid] is the
    value drawn from the [contas] id sequence.  The NUMERIC(14,2) range of
    [saldo_inicial] and the CHECK on [tipo] are tested before the conflict
    on [nome]. *)
Definition insert_conta (c : conta) : txn := fun d =>
  if negb (Numeric.fits_numeric2 (conta_saldo_inicial c)) then None
  else if negb (String.eqb (conta_tipo c) "CONTA" || String.eqb (conta_tipo c) "CARTAO")
  then None
  else if existsb (fun x => String.eqb (conta_nome x) (conta_nome c)) (contas d) then Some d
  else if existsb (fun x => conta_id x =? conta_id c) (contas d) then None
  else Some (set_contas d (contas d ++ [c])).

Definition conta_add (nid : Z) (nome : Codec.str) (tipo : string) (saldo_ini : Codec.str)
  : feedback * list txn :=
  match Codec.strip nome with
  | [] => (Erro "Informe o nome.", [])
  | n =>
      let v := if String.eqb tipo "CONTA" then Codec.parse_brl (Codec.PyStr saldo_ini)
               else 0%Q in
      (Ok, [insert_conta (mk_conta nid (string_of_list_ascii n) tipo true
                                   (Numeric.to_numeric2 v))])
  end.

(** *** Categorias tab: "Adicionar categoria" and "Salvar categorias" *)

Definition insert_categoria (c : categoria) : txn := fun d =>
  if existsb (fun x => String.eqb (categoria_nome x) (categoria_nome c)) (categorias d)
  then Some d
  else if existsb (fun x => categoria_id x =? categoria_id c) (categorias d) then None
  else Some (set_categorias d (categorias d ++ [c])).

Definition categoria_add (nid : Z) (nova : Codec.str) : feedback * list txn :=
  match Codec.strip nova with
  | [] => (Erro "Informe um nome.", [])
  | n => (Ok, [insert_categoria (mk_categoria nid (string_of_list_ascii n) true)])
  end.

(** [UPDATE categorias SET nome=%s, ativo=%s WHERE id=%s]; the UNIQUE
    constraint on [nome] is checked at the end of the statement. *)
Definition update_categoria (nome : string) (ativo : bool) (cid : Z) : txn := fun d =>
  let cs := map (fun c => if categoria_id c =? cid then mk_categoria (categoria_id c) nome ativo
                          else c) (categorias d) in
  if existsb (fun c => (categoria_id c =? cid)) (categorias d)
     && (1 <? List.length (filter (fun c => String.eqb (categoria_nome c) nome) cs))%nat
  then None
  else Some (set_categorias d cs).

(** [exec_many]: the statements run one after the other in one
    transaction, committed at the end; the first failure rolls all back. *)
Fixpoint exec_many (ts : list txn) : txn := fun d =>
  match ts with
  | [] => Some d
  | t :: r => match t d with Some d' => exec_many r d' | None => None end
  end.

(** The rows of the editor: [(str(r["nome"]).strip(), bool(r["ativo"]),
    id)]. *)
Definition categorias_save (rows : list (string * bool * Z)) : feedback * list txn :=
  (Ok, [exec_many (map (fun r => let '(nome, ativo, cid) := r in
                                 update_categoria (strip_string nome) ativo cid) rows)]).

(** *** Faturas tab: "Excluir fatura" *)

(** [DELETE FROM faturas WHERE id=%s]: refused by the foreign keys of
    [lancamentos.fatura_id] and [pagamentos_fatura.fatura_id]. *)
Definition delete_fatura (fid : Z) : txn := fun d =>
  if existsb (fun l => opt_Zeqb (lanc_fatura_id l) fid) (lancamentos d)
     || existsb (fun p => pag_fatura_id p =? fid) (pagamentos_fatura d)
  then None
  else Some (set_faturas d (filter (fun f => negb (fat_id f =? fid)) (faturas d))
                         (seq_faturas d)).

(** [fatura_id] is the id of the selected row (the options are the ids
    themselves); the count and the delete are two separate queries. *)
Definition fat_excluir (d : db) (fatura_id : Z) (confirm : bool) : feedback * list txn :=
  let qtd := Z.of_nat (List.length
               (filter (fun l => opt_Zeqb (lanc_fatura_id l) fatura_id) (lancamentos d))) in
  if 0 <? qtd then
    (Warning ("Esta fatura possui " ++ z_to_string qtd
              ++ " lançamento(s) vinculado(s). Exclua/ajuste os lançamentos primeiro."), [])
  else if negb confirm then (Erro "Marque a confirmação.", [])
  else (Ok, [delete_fatura fatura_id]).

(** *** Lançamentos tab: "Aplicar baixa" *)

(** The ids of the text: the pieces between commas, stripped, that are
    made of digits, read as integers, in order. *)
Definition parse_ids (ids_txt : Codec.str) : list Z :=
  map Codec.digits_value
    (filter Codec.isdigit (map Codec.strip (Codec.split_on ","%char ids_txt))).



(** *** Lançamentos tab: "Gerar receitas" *)

(** [exec_many] of INSERTs into [lancamentos]: each row gets the next
    value of the sequence. *)
Fixpoint insert_rows (rows : list (Z -> lancamento)) : txn := fun d =>
  match rows with
  | [] => Some d
  | r :: rs =>
      match insert_lancamento (r (seq_lancamentos d + 1)) d with
      | Some d' => insert_rows rs d'
      | None => None
      end
  end.

(** [cat_choice] is the selected category id, [None] when there is no
    active category. *)
Definition lote_receitas (n : Z) (desc_base : Codec.str) (dt_prev : Z) (v_txt : Codec.str)
    (conta_sel : Z) (cat_choice : option Z) : feedback * list txn :=
  let v := Codec.parse_brl (Codec.PyStr v_txt) in
  if Qle_bool v 0 then (Erro "Valor inválido.", [])
  else
    (Ok, [insert_rows
            (map (fun i => fun id =>
                    mk_lancamento id "RECEITA"
                      (string_of_list_ascii (Codec.strip desc_base) ++ " #"
                       ++ z_to_string (Z.of_nat i + 1))
                      (Numeric.to_numeric2 v) dt_prev None conta_sel None
                      (match cat_choice with Some 0 | None => None | Some c => Some c end)
                      None (Some "Pendente"%string) None)
                 (List.seq 0 (Z.to_nat n)))]).

(** *** Lançamentos tab: "Gerar prévia" *)

(** The fields of the "Novo lançamento" form; [pf_choice] is the index
    selected in "Vincular à fatura (1ª parcela)". *)
Record previa_form := mk_previa_form {
  pf_tipo_l : string; pf_conta_id : Z; pf_conta_tipo : string; pf_dt_comp : Z;
  pf_parcelas : Z; pf_desc : Codec.str; pf_cat_id : Z; pf_forma : string;
  pf_status : string; pf_modo_valor : string; pf_valor_txt : Codec.str;
  pf_choice : nat; pf_dt_liq : option Z }.

(** A row of the preview frame ([linhas]). *)
Record linha := mk_linha {
  ln_tipo : string; ln_descricao : string; ln_valor : Q; ln_dt_competencia : Z;
  ln_dt_liquidacao : option Z; ln_conta_id : Z; ln_fatura_id : option Z;
  ln_categoria_id : Z; ln_forma_pagamento : option string; ln_status : option string;
  ln_prestacao : option string }.

(** The same form with another statement option selected. *)
Definition with_choice (f : previa_form) (c : nat) : previa_form :=
  mk_previa_form (pf_tipo_l f) (pf_conta_id f) (pf_conta_tipo f) (pf_dt_comp f)
    (pf_parcelas f) (pf_desc f) (pf_cat_id f) (pf_forma f) (pf_status f)
    (pf_modo_valor f) (pf_valor_txt f) c (pf_dt_liq f).

Definition cartao_despesa (f : previa_form) : bool :=
  String.eqb (pf_conta_tipo f) "CARTAO" && String.eqb (pf_tipo_l f) "DESPESA".

(** The option values [int(r.name)] of the statement select box: the
    frame from [list_faturas] has the default index, so these are the
    positions 0, 1, 2, .... *)
Definition previa_opts (dff : list fatura) : list Z :=
  map Z.of_nat (List.seq 0 (List.length dff)).

(** [fatura_id = opts[choice][0]], or [None] when the box is not shown. *)
Definition previa_fatura_id (d : db) (f : previa_form) : option Z :=
  if cartao_despesa f then nth_error (previa_opts (list_faturas d (pf_conta_id f))) (pf_choice f)
  else None.

Definition gerar_previa (d : db) (f : previa_form) : (list string + list linha)%type :=
  let fatura_id := previa_fatura_id d f in
  let v := Codec.parse_brl (Codec.PyStr (pf_valor_txt f)) in
  let erros :=
    (match Codec.strip (pf_desc f) with [] => ["Descrição obrigatória."%string] | _ => [] end)
    ++ (if Qle_bool v 0 then ["Valor deve ser maior que 0."%string] else [])
    ++ (if String.eqb (pf_tipo_l f) "RECEITA" && negb (pf_parcelas f =? 1)
        then ["Receita parcelada: por enquanto use parcelas = 1 (podemos evoluir depois)."%string]
        else [])
    ++ (if cartao_despesa f && match fatura_id with None => true | Some z => z =? 0 end
        then ["Selecione uma fatura para compras no cartão."%string] else []) in
  match erros with
  | _ :: _ => inl erros
  | [] =>
      let n := pf_parcelas f in
      let vals := Parcelas._calc_valores_parcelas v n (pf_modo_valor f) in
      inr (map (fun i =>
                  let dt_i := Calendar.add_months (pf_dt_comp f) (Z.of_nat i) in
                  mk_linha (pf_tipo_l f) (string_of_list_ascii (Codec.strip (pf_desc f)))
                    (nth i vals 0%Q) dt_i (pf_dt_liq f) (pf_conta_id f)
                    (if cartao_despesa f then suggest_fatura_for_date d (pf_conta_id f) dt_i
                     else None)
                    (pf_cat_id f) (py_or_none (pf_forma f)) (py_or_none (pf_status f))
                    (if 1 <? n
                     then Some (z_to_string (Z.of_nat i + 1) ++ "/" ++ z_to_string n)%string
                     else None))
               (List.seq 0 (Z.to_nat n)))
  end.

End Pages.

Module Examples.
Import Ledger.

Definition conta_banco : conta := mk_conta 1 "Banco" "CONTA" true 100000.
Definition conta_cora : conta := mk_conta 1 "Cora" "CONTA" true 0.
Definition cartao_xp : conta := mk_conta 2 "Cartão XP" "CARTAO" true 0.

(** An income or expense of account 1, dated day 100. *)
Definition lanc (id : Z) (tipo : string) (valor : Z) (status forma : option string)
  : lancamento :=
  mk_lancamento id tipo "x" valor 100 None 1 None None forma status None.

(** An account with opening balance 1000.00, an income of 200.00 with status
    "Recebido" and an expense of 50.00 with status "Pendente". *)
Definition db_saldo : db :=
  mk_db [conta_banco] [] []
    [lanc 1 "RECEITA" 20000 (Some "Recebido"%string) None;
     lanc 2 "DESPESA" 5000 (Some "Pendente"%string) None] [] 0 2 0.

(** Card 2 with the statements of three consecutive months: January
    (id 1, paid from Cora by transaction 1), February (id 2) and March
    (id 3), both open. *)
Definition fatura_mes (id competencia : Z) (status : string) : fatura :=
  mk_fatura id 2 competencia competencia (competencia + 30) (competencia + 30)
    (competencia + 40) status.

Definition db_faturas : db :=
  mk_db [conta_cora; cartao_xp] []
    [fatura_mes 1 0 "PAGA"; fatura_mes 2 31 "ABERTA"; fatura_mes 3 59 "ABERTA"]
    [lanc 1 "DESPESA" 10000 (Some "Pago"%string) (Some "Transferência"%string)]
    [mk_pagamento 1 1 1 20 10000] 3 1 1.

(** Two pending incomes, 30.00 paid by "PIX" with no status and 70.00
    with status "Pendente". *)
Definition db_receitas : db :=
  mk_db [conta_cora] [] []
    [lanc 1 "RECEITA" 3000 None (Some "PIX"%string);
     lanc 2 "RECEITA" 7000 (Some "Pendente"%string) None] [] 0 2 0.

(** The page's total for them: numpy's sum of a two-element float column
    is one float addition. *)
Definition total_receitas : Q := Binary64.add (Binary64.of_cents 3000) (Binary64.of_cents 7000).

(** The grouping of both incomes into a slip due on day 110. *)
Definition gerar_receitas : feedback * list txn :=
  bol_gerar db_receitas [1; 2] total_receitas "Boleto agrupado" 110 1 None.

(** A received income whose payment method was typed as "Boleto:5"; no
    row 5 exists. *)
Definition db_boleto_texto : db :=
  mk_db [conta_cora] [] []
    [lanc 1 "RECEITA" 1000 (Some "Recebido"%string) (Some "Boleto:5"%string)] [] 0 1 0.

(** Users of the APP_USERS variable: one name with a ':' inside its
    password, and one password with a space. *)
Definition wl_entries : list (Codec.str * Codec.str) :=
  [(list_ascii_of_string "hugo", list_ascii_of_string "Se:nha");
   (list_ascii_of_string "admin", list_ascii_of_string "a b")].


(** [db_saldo] with two categories, "Lazer" inactive. *)
Definition db_categorias : db :=
  Pages.set_categorias db_saldo [mk_categoria 1 "Casa" true; mk_categoria 2 "Lazer" false].

(** A card expense of 100,00 in two installments on card 2, with the
    statement option [choice]. *)
Definition wp_form (choice : nat) : Pages.previa_form :=
  Pages.mk_previa_form "DESPESA" 2 "CARTAO" 31 2 (list_ascii_of_string "Fone") 1 "" "Pendente"
    "Total" (list_ascii_of_string "100,00") choice None.

End Examples.

(** * Proofs *)

(** ** The money codec *)
Module CodecFacts.
Import Codec Binary64.

(** Character classes of the rendered text. *)
Definition isd (c : ascii) : Prop := is_digit c = true.
Definition isdc (c : ascii) : Prop := is_digit c = true \/ c = ","%char.
Definition okc (c : ascii) : Prop :=
  is_digit c = true \/ c = ","%char \/ c = "."%char \/ c = "-"%char.


Lemma is_digit_cases c : is_digit c = true ->
  In c ["0"; "1"; "2"; "3"; "4"; "5"; "6"; "7"; "8"; "9"]%char.
Proof.
  destruct c as [[] [] [] [] [] [] [] []]; intros H; try discriminate H; simpl; tauto.
Qed.

Ltac digit_case H :=
  apply is_digit_cases in H; simpl in H;
  repeat (destruct H as [<-|H]; [|]); [..|contradiction].

Lemma digit_facts c : is_digit c = true ->
  is_space c = false /\ brl_char c = true /\ c <> "R"%char /\
  Ascii.eqb c ","%char = false /\ Ascii.eqb c "."%char = false /\
  Ascii.eqb c "X"%char = false.
Proof. intros H. digit_case H; repeat split; try reflexivity; discriminate. Qed.

Lemma digit_char_ok j : 0 <= j < 10 ->
  is_digit (digit_char j) = true /\ digit_val (digit_char j) = j.
Proof.
  intros Hj. unfold is_digit, digit_val, digit_char.
  rewrite nat_ascii_embedding by lia. split.
  - apply andb_true_intro; split; apply Nat.leb_le; lia.
  - lia.
Qed.

Lemma digits_aux_spec f : forall n acc, 0 <= n < 10 ^ Z.of_nat (S f) ->
  exists D, digits_aux (S f) n acc = D ++ acc /\ D <> [] /\
    Forall isd D /\ digits_value D = n.
Proof.
  induction f as [|f IH]; intros n acc Hn.
  - assert (n < 10) by (simpl in Hn; lia).
    exists [digit_char n]. cbn [digits_aux].
    rewrite (proj2 (Z.ltb_lt n 10)) by lia.
    destruct (digit_char_ok n ltac:(lia)) as [H1 H2].
    repeat split; [discriminate|repeat constructor; exact H1|].
    unfold digits_value; simpl; lia.
  - cbn [digits_aux]. destruct (n <? 10) eqn:E.
    + apply Z.ltb_lt in E.
      destruct (digit_char_ok n ltac:(lia)) as [H1 H2].
      exists [digit_char n]. repeat split; [discriminate|repeat constructor; exact H1|].
      unfold digits_value; simpl; lia.
    + apply Z.ltb_ge in E.
      destruct (IH (n / 10) (digit_char (n mod 10) :: acc)) as (D & HD & Hne & Hall & Hv).
      { split; [apply Z.div_pos; lia|].
        apply Z.div_lt_upper_bound; [lia|].
        rewrite Nat2Z.inj_succ, Z.pow_succ_r in Hn by lia. lia. }
      pose proof (Z.mod_pos_bound n 10 ltac:(lia)).
      destruct (digit_char_ok (n mod 10) ltac:(lia)) as [H1 H2].
      exists (D ++ [digit_char (n mod 10)]).
      rewrite <- app_assoc. simpl. repeat split.
      * exact HD.
      * destruct D; [contradiction|discriminate].
      * apply Forall_app; split; [exact Hall|repeat constructor; exact H1].
      * unfold digits_value in *. rewrite fold_left_app. simpl.
        rewrite Hv, H2. pose proof (Z.div_mod n 10 ltac:(lia)). lia.
Qed.

Lemma digits_spec n : 0 <= n ->
  digits n <> [] /\ Forall isd (digits n) /\ digits_value (digits n) = n.
Proof.
  intros Hn. unfold digits.
  destruct (digits_aux_spec (Z.to_nat (Z.log2 n)) n [])
    as (D & HD & Hne & Hall & Hv).
  { split; [lia|].
    rewrite Nat2Z.inj_succ, Z2Nat.id by apply Z.log2_nonneg.
    destruct (Z.eq_dec n 0) as [->|Hn0]; [reflexivity|].
    destruct (Z.log2_spec n ltac:(lia)) as [_ Hs].
    eapply Z.lt_le_trans; [exact Hs|].
    rewrite <- Z.add_1_r.
    apply Z.pow_le_mono_l; lia. }
  rewrite HD, app_nil_r. auto.
Qed.

Lemma pad2_digits r : 0 <= r < 100 ->
  pad2 (digits r) = [digit_char (r / 10); digit_char (r mod 10)].
Proof.
  intros Hr. unfold digits.
  destruct (Z.lt_ge_cases r 10) as [Hlt|Hge].
  - cbn [digits_aux]. rewrite (proj2 (Z.ltb_lt r 10)) by lia.
    rewrite Z.div_small, Z.mod_small by lia. reflexivity.
  - assert (Hl : 3 <= Z.log2 r).
    { apply Z.log2_le_pow2; lia. }
    destruct (Z.to_nat (Z.log2 r)) as [|f] eqn:Ef; [lia|].
    cbn [digits_aux]. rewrite (proj2 (Z.ltb_ge r 10)) by lia.
    destruct f; cbn [digits_aux];
      rewrite (proj2 (Z.ltb_lt (r / 10) 10)) by (apply Z.div_lt_upper_bound; lia);
      reflexivity.
Qed.


Lemma filter_rev {A} (f : A -> bool) l : filter f (rev l) = rev (filter f l).
Proof.
  induction l as [|a l IH]; simpl; [reflexivity|].
  rewrite filter_app, IH. simpl. destruct (f a); simpl; auto using app_nil_r.
Qed.

Lemma digits_notcomma l : Forall isd l ->
  filter (fun c => negb (Ascii.eqb c ","%char)) l = l.
Proof.
  induction 1 as [|c l Hc _ IH]; simpl; [reflexivity|].
  destruct (digit_facts c Hc) as (_ & _ & _ & -> & _). simpl. now rewrite IH.
Qed.

Lemma group_rev_spec n : forall l, (List.length l <= n)%nat -> Forall isd l ->
  filter (fun c => negb (Ascii.eqb c ","%char)) (group_rev l) = l /\
  Forall isdc (group_rev l).
Proof.
  induction n as [|n IH]; intros l Hlen Hall.
  - destruct l; [split; [reflexivity|constructor]|simpl in Hlen; lia].
  - destruct l as [|a [|b [|c [|d t]]]];
      try (split; [apply digits_notcomma; exact Hall
                  |eapply Forall_impl; [|exact Hall]; intros x Hx; left; exact Hx]).
    inversion Hall as [|? ? Ha H1]; subst. inversion H1 as [|? ? Hb H2]; subst.
    inversion H2 as [|? ? Hc H3]; subst.
    destruct (IH (d :: t)) as [IH1 IH2]; [simpl in *; lia|exact H3|].
    assert (E : group_rev (a :: b :: c :: d :: t)
                = a :: b :: c :: ","%char :: group_rev (d :: t)) by reflexivity.
    rewrite E. split.
    + cbn [filter].
      destruct (digit_facts a Ha) as (_ & _ & _ & -> & _).
      destruct (digit_facts b Hb) as (_ & _ & _ & -> & _).
      destruct (digit_facts c Hc) as (_ & _ & _ & -> & _).
      cbn [negb]. change (Ascii.eqb ","%char ","%char) with true. cbn [negb].
      now rewrite IH1.
    + apply Forall_cons; [left; exact Ha|].
      apply Forall_cons; [left; exact Hb|].
      apply Forall_cons; [left; exact Hc|].
      apply Forall_cons; [right; reflexivity|exact IH2].
Qed.

Lemma group3_spec l : Forall isd l ->
  filter (fun c => negb (Ascii.eqb c ","%char)) (group3 l) = l /\
  Forall isdc (group3 l).
Proof.
  intros Hall. unfold group3.
  destruct (group_rev_spec (List.length (rev l)) (rev l) (le_n _))
    as [H1 H2]; [apply Forall_rev; exact Hall|].
  split.
  - rewrite filter_rev, H1. apply rev_involutive.
  - apply Forall_rev. exact H2.
Qed.


Lemma okc_facts c : okc c ->
  is_space c = false /\ c <> "R"%char /\ brl_char c = true.
Proof.
  unfold okc; intros [H|[E|[E|E]]];
    try (subst c; split; [reflexivity|split; [discriminate|reflexivity]]).
  destruct (digit_facts c H) as (? & ? & ? & _). auto.
Qed.

Lemma drop_space_id s : Forall (fun c => is_space c = false) s -> drop_space s = s.
Proof. intros H; destruct H as [|c s Hc _]; simpl; [reflexivity|now rewrite Hc]. Qed.

Lemma strip_id s : Forall (fun c => is_space c = false) s -> strip s = s.
Proof.
  intros H. unfold strip. rewrite (drop_space_id s) by exact H.
  rewrite drop_space_id by (apply Forall_rev; exact H). apply rev_involutive.
Qed.

Lemma remove_rs_cons c r : c <> "R"%char -> remove_rs (c :: r) = c :: remove_rs r.
Proof.
  destruct c as [[] [] [] [] [] [] [] []]; intros H; try reflexivity.
  exfalso; apply H; reflexivity.
Qed.

Lemma remove_rs_id s : Forall (fun c => c <> "R"%char) s -> remove_rs s = s.
Proof.
  induction 1 as [|c s Hc _ IH]; [reflexivity|].
  rewrite remove_rs_cons by exact Hc. now rewrite IH.
Qed.

Lemma filter_id {A} (f : A -> bool) s : Forall (fun c => f c = true) s -> filter f s = s.
Proof. induction 1 as [|c s Hc _ IH]; simpl; [reflexivity|now rewrite Hc, IH]. Qed.

Lemma mem_false_filter a s : mem a s = false ->
  filter (fun c => negb (Ascii.eqb c a)) s = s.
Proof.
  induction s as [|c s IH]; simpl; [reflexivity|].
  intros H. apply orb_false_iff in H as [H1 H2].
  rewrite Ascii.eqb_sym, H1. simpl. now rewrite IH.
Qed.

Lemma brl_branch t : mem ","%char t = true ->
  (if mem ","%char t && mem "."%char t then
     replace_char ","%char "."%char (filter (fun c => negb (Ascii.eqb c "."%char)) t)
   else if mem ","%char t then replace_char ","%char "."%char t
   else t)
  = replace_char ","%char "."%char (filter (fun c => negb (Ascii.eqb c "."%char)) t).
Proof.
  intros H. rewrite H. destruct (mem "."%char t) eqn:E; [reflexivity|].
  simpl. now rewrite mem_false_filter.
Qed.

Lemma notdot_comma_to_dot G : Forall isdc G ->
  filter (fun c => negb (Ascii.eqb c "."%char)) (replace_char ","%char "."%char G)
  = filter (fun c => negb (Ascii.eqb c ","%char)) G.
Proof.
  induction 1 as [|c G Hc _ IH]; [reflexivity|].
  unfold replace_char in *. simpl.
  destruct Hc as [Hc| ->].
  - destruct (digit_facts c Hc) as (_ & _ & _ & E1 & E2 & _).
    rewrite E1. simpl. rewrite E2. simpl. now rewrite IH.
  - simpl. exact IH.
Qed.

Lemma replace_digits_id a b s : Forall isd s -> Ascii.eqb a ","%char = true ->
  replace_char a b s = s.
Proof.
  intros H Ha. apply Ascii.eqb_eq in Ha. subst a.
  induction H as [|c s Hc _ IH]; [reflexivity|].
  unfold replace_char in *. simpl.
  destruct (digit_facts c Hc) as (_ & _ & _ & -> & _). now rewrite IH.
Qed.

Lemma span_digits_app D s : Forall isd D ->
  span_digits (D ++ s) = (D ++ fst (span_digits s), snd (span_digits s)).
Proof.
  induction 1 as [|c D Hc _ IH]; simpl.
  - destruct (span_digits s); reflexivity.
  - unfold isd in Hc. rewrite Hc, IH. reflexivity.
Qed.

Lemma py_sign_digit d r : is_digit d = true -> py_sign (d :: r) = (false, d :: r).
Proof. intros H. digit_case H; reflexivity. Qed.

Lemma py_decimal_cents D c1 c2 : D <> [] -> Forall isd D -> isd c1 -> isd c2 ->
  py_decimal (D ++ "."%char :: [c1; c2])
  = Some (digits_value D * 100 + digits_value [c1; c2], 100%positive).
Proof.
  intros Hne HD H1 H2. unfold py_decimal.
  rewrite span_digits_app by exact HD.
  change (span_digits ("."%char :: [c1; c2])) with (@nil ascii, "."%char :: [c1; c2]).
  cbn [fst snd]. rewrite app_nil_r.
  cbn [span_digits]. unfold isd in H1, H2. rewrite H1, H2.
  destruct D as [|d D]; [contradiction|]. reflexivity.
Qed.

Lemma br_shape (neg : bool) r : 0 <= r ->
  replace_char "X"%char "."%char (replace_char "."%char ","%char
    (replace_char ","%char "X"%char
      ((if neg then ["-"%char] else []) ++ group3 (digits (r / 100)) ++ ["."%char]
         ++ pad2 (digits (r mod 100)))))
  = (if neg then ["-"%char] else []) ++ replace_char ","%char "."%char (group3 (digits (r / 100)))
      ++ [","%char] ++ pad2 (digits (r mod 100)).
Proof.
  intros Hr.
  pose proof (Z.mod_pos_bound r 100 ltac:(lia)) as Hm.
  destruct (digits_spec (r / 100) ltac:(apply Z.div_pos; lia)) as (_ & HD & _).
  destruct (group3_spec _ HD) as [_ HG].
  unfold replace_char. rewrite !map_map, !map_app.
  f_equal; [destruct neg; reflexivity|].
  f_equal.
  - apply map_ext_in. intros c Hc.
    rewrite Forall_forall in HG. destruct (HG c Hc) as [Hd| ->]; [|reflexivity].
    destruct (digit_facts c Hd) as (_ & _ & _ & E1 & E2 & E3).
    cbv beta. rewrite ?E1, ?E2, ?E3. reflexivity.
  - f_equal. rewrite pad2_digits by lia.
    pose proof (Z.mod_pos_bound (r mod 100) 10 ltac:(lia)).
    assert (0 <= r mod 100 / 10 < 10) by (split; [apply Z.div_pos|apply Z.div_lt_upper_bound]; lia).
    destruct (digit_char_ok (r mod 100 / 10) ltac:(lia)) as [Ha _].
    destruct (digit_char_ok (r mod 100 mod 10) ltac:(lia)) as [Hb _].
    destruct (digit_facts _ Ha) as (_ & _ & _ & A1 & A2 & A3).
    destruct (digit_facts _ Hb) as (_ & _ & _ & B1 & B2 & B3).
    set (a := digit_char (r mod 100 / 10)) in *.
    set (b := digit_char (r mod 100 mod 10)) in *.
    cbn [map]. cbv beta. rewrite ?A1, ?A2, ?A3, ?B1, ?B2, ?B3. reflexivity.
Qed.

Lemma parse_shape (neg : bool) r : 0 <= r ->
  parse_brl (PyStr ((if neg then ["-"%char] else [])
    ++ replace_char ","%char "."%char (group3 (digits (r / 100)))
    ++ [","%char] ++ pad2 (digits (r mod 100))))
  = Binary64.round (Qmake (if neg then - r else r) 100).
Proof.
  intros Hr.
  pose proof (Z.mod_pos_bound r 100 ltac:(lia)) as Hm.
  destruct (digits_spec (r / 100) ltac:(apply Z.div_pos; lia)) as (HDne & HD & HDv).
  destruct (group3_spec _ HD) as [HGf HG].
  set (D := digits (r / 100)) in *. set (G := group3 D) in *.
  rewrite pad2_digits by lia.
  pose proof (Z.mod_pos_bound (r mod 100) 10 ltac:(lia)).
  assert (0 <= r mod 100 / 10 < 10) by (split; [apply Z.div_pos|apply Z.div_lt_upper_bound]; lia).
  destruct (digit_char_ok (r mod 100 / 10) ltac:(lia)) as [Ha Hav].
  destruct (digit_char_ok (r mod 100 mod 10) ltac:(lia)) as [Hb Hbv].
  set (a := digit_char (r mod 100 / 10)) in *.
  set (b := digit_char (r mod 100 mod 10)) in *.
  set (sg := if neg then ["-"%char] else []).
  assert (Hsg : Forall okc sg) by (destruct neg; repeat constructor; do 3 right; reflexivity).
  set (B := sg ++ replace_char ","%char "."%char G ++ [","%char] ++ [a; b]).
  assert (HB : Forall okc B).
  { apply Forall_app; split; [exact Hsg|]. apply Forall_app; split.
    - unfold replace_char. apply Forall_map. eapply Forall_impl; [|exact HG].
      intros c [Hc| ->]; [|right; right; left; reflexivity].
      destruct (digit_facts c Hc) as (_ & _ & _ & -> & _). left; exact Hc.
    - cbn [app]. apply Forall_cons; [right; left; reflexivity|].
      apply Forall_cons; [left; exact Ha|]. apply Forall_cons; [left; exact Hb|constructor]. }
  assert (Hsp : Forall (fun c => is_space c = false) B)
    by (eapply Forall_impl; [|exact HB]; intros c Hc; apply (okc_facts c Hc)).
  assert (HR : Forall (fun c => c <> "R"%char) B)
    by (eapply Forall_impl; [|exact HB]; intros c Hc; apply (okc_facts c Hc)).
  assert (Hbr : Forall (fun c => brl_char c = true) B)
    by (eapply Forall_impl; [|exact HB]; intros c Hc; apply (okc_facts c Hc)).
  assert (Hmem : mem ","%char B = true).
  { unfold mem. apply existsb_exists. exists ","%char. split; [|reflexivity].
    unfold B. apply in_or_app; right. apply in_or_app; right. left; reflexivity. }
  assert (Hfd : filter (fun c => negb (Ascii.eqb c "."%char)) B = sg ++ D ++ [","%char; a; b]).
  { unfold B. rewrite !filter_app. rewrite notdot_comma_to_dot by exact HG. rewrite HGf.
    destruct (digit_facts a Ha) as (_ & _ & _ & _ & A2 & _).
    destruct (digit_facts b Hb) as (_ & _ & _ & _ & B2 & _).
    f_equal; [unfold sg; destruct neg; reflexivity|]. f_equal.
    cbn [filter]. rewrite A2, B2. reflexivity. }
  assert (Hrep : replace_char ","%char "."%char (sg ++ D ++ [","%char; a; b])
                 = sg ++ D ++ "."%char :: [a; b]).
  { unfold replace_char. rewrite !map_app. f_equal; [unfold sg; destruct neg; reflexivity|].
    f_equal; [apply (replace_digits_id ","%char "."%char D HD); reflexivity|].
    destruct (digit_facts a Ha) as (_ & _ & _ & A1 & _).
    destruct (digit_facts b Hb) as (_ & _ & _ & B1 & _).
    cbn [map]. rewrite A1, B1. reflexivity. }
  assert (Htext : brl_text B = sg ++ D ++ "."%char :: [a; b]).
  { unfold brl_text. rewrite (strip_id B Hsp), (remove_rs_id B HR), (strip_id B Hsp).
    rewrite (filter_id _ B Hbr), brl_branch by exact Hmem. rewrite Hfd. exact Hrep. }
  unfold parse_brl. rewrite (strip_id B Hsp), Htext.
  assert (Hdec : py_decimal (D ++ "."%char :: [a; b]) = Some (r, 100%positive)).
  { rewrite py_decimal_cents by assumption. do 2 f_equal.
    unfold digits_value at 2. cbn [fold_left]. rewrite Hav, Hbv, HDv.
    pose proof (Z.div_mod r 100 ltac:(lia)).
    pose proof (Z.div_mod (r mod 100) 10 ltac:(lia)). lia. }
  assert (HBne : B <> []) by (unfold B; intros E; apply app_eq_nil in E as [_ E];
                             apply app_eq_nil in E as [_ E]; discriminate).
  destruct B as [|c0 t0] eqn:EB; [contradiction|].
  unfold py_float.
  assert (Hs : py_sign (sg ++ D ++ "."%char :: [a; b])
               = (neg, D ++ "."%char :: [a; b])).
  { unfold sg; destruct neg; [reflexivity|].
    destruct D as [|d D']; [contradiction|]. inversion HD; subst.
    simpl app. apply py_sign_digit. assumption. }
  rewrite Hs, Hdec. reflexivity.
Qed.
Lemma round_ne_spec p q : 0 < q -> Z.abs (2 * round_ne p q * q - 2 * p) <= q.
Proof.
  intros Hq. unfold round_ne.
  pose proof (Z.div_mod p q ltac:(lia)) as Hd.
  pose proof (Z.mod_pos_bound p q Hq) as Hm.
  set (k := p / q) in *. set (r := p mod q) in *.
  destruct (2 * r <? q) eqn:E1; [apply Z.ltb_lt in E1; lia|].
  apply Z.ltb_ge in E1.
  destruct (q <? 2 * r) eqn:E2; [apply Z.ltb_lt in E2; lia|].
  apply Z.ltb_ge in E2.
  destruct (Z.even k); lia.
Qed.

Lemma round_ne_close p q z : 0 < q -> 2 * Z.abs (p - z * q) < q -> round_ne p q = z.
Proof.
  intros Hq Hc. unfold round_ne.
  pose proof (Z.div_mod p q ltac:(lia)) as Hd.
  pose proof (Z.mod_pos_bound p q Hq) as Hm.
  set (k := p / q) in *. set (r := p mod q) in *.
  assert (k - z < 1) by nia. assert (k - z > -2) by nia.
  assert (k = z \/ k = z - 1) as [-> | ->] by lia.
  - assert (2 * r < q) by nia.
    destruct (2 * r <? q) eqn:E1; [reflexivity|apply Z.ltb_ge in E1; lia].
  - assert (q < 2 * r) by nia.
    destruct (2 * r <? q) eqn:E1; [apply Z.ltb_lt in E1; lia|].
    destruct (q <? 2 * r) eqn:E2; [lia|apply Z.ltb_ge in E2; lia].
Qed.

Lemma flog2_le a d : flog2 a d <= Z.log2 a - Z.log2 d.
Proof.
  unfold flog2.
  destruct (0 <=? _); [destruct (_ <=? a)|destruct (d <=? _)]; lia.
Qed.

Lemma of_cents_exact k :
  Z.abs k < 10 ^ 14 ->
  round_ne (Z.abs (Qnum (of_cents k)) * 100) (Zpos (Qden (of_cents k))) = Z.abs k /\
  (Qnum (of_cents k) <? 0) = (k <? 0).
Proof.
  intros Hk. unfold of_cents, round. cbn [Qnum Qden].
  destruct (Z.eqb_spec k 0) as [->|Hk0]; [split; reflexivity|].
  assert (Hl : Z.log2 (Z.abs k) < 47).
  { apply Z.log2_lt_pow2; [lia|]. eapply Z.lt_trans; [exact Hk|reflexivity]. }
  pose proof (flog2_le (Z.abs k) 100) as Hf.
  change (Z.log2 100) with 6 in Hf.
  set (e := Z.max (flog2 (Z.abs k) 100 - 52) (-1074)).
  assert (He : -1074 <= e <= -12) by lia.
  destruct (0 <=? e) eqn:E0; [apply Z.leb_le in E0; lia|]. clear E0.
  cbn [Qnum Qden].
  set (P := 2 ^ (- e)).
  assert (HP : 2 ^ 12 <= P) by (apply Z.pow_le_mono_r; lia).
  change (2 ^ 12) with 4096 in HP.
  rewrite Z2Pos.id by lia.
  pose proof (round_ne_spec (k * P) 100 ltac:(lia)) as Hr.
  set (m := round_ne (k * P) 100) in *.
  assert (Hb : Z.abs (m * 100 - k * P) <= 50) by lia.
  assert (Hs : (k < 0 /\ m < 0) \/ (0 < k /\ 0 < m)) by nia.
  split.
  - apply round_ne_close; [lia|].
    destruct Hs as [[? ?]|[? ?]].
    + rewrite (Z.abs_neq m), (Z.abs_neq k) by lia.
      replace (- m * 100 - - k * P) with (- (m * 100 - k * P)) by ring.
      rewrite Z.abs_opp. lia.
    + rewrite (Z.abs_eq m), (Z.abs_eq k) by lia. lia.
  - destruct Hs as [[? ?]|[? ?]].
    + rewrite (proj2 (Z.ltb_lt m 0)), (proj2 (Z.ltb_lt k 0)); auto.
    + rewrite (proj2 (Z.ltb_ge m 0)), (proj2 (Z.ltb_ge k 0)); auto; lia.
Qed.

End CodecFacts.

(** ** Claims about the money codec *)
Module CodecClaims.
Import Codec.

(** C8: every two-decimal value of the NUMERIC(14,2) range (fewer than
    10^14 cents), as the float Postgres hands back, is rendered by
    [br_money] to a text that [parse_brl] reads back as the same float. *)
Theorem br_money_parse_roundtrip k : Z.abs k < 10 ^ 14 ->
  parse_brl (PyStr (br_money (Binary64.of_cents k))) = Binary64.of_cents k.
Proof.
  intros Hk. destruct (CodecFacts.of_cents_exact k Hk) as [Hr Hs].
  unfold br_money at 1, format_2f_grouped. rewrite Hr, Hs.
  rewrite CodecFacts.br_shape by lia. rewrite CodecFacts.parse_shape by lia.
  unfold Binary64.of_cents. f_equal. f_equal.
  destruct (Z.ltb_spec k 0); lia.
Qed.

Lemma br_money_parse_roundtrip_witness :
  Z.abs 163000 < 10 ^ 14
  /\ br_money (Binary64.of_cents 163000) = list_ascii_of_string "1.630,00"
  /\ parse_brl (PyStr (br_money (Binary64.of_cents 163000))) = Binary64.of_cents 163000.
Proof.
  split; [reflexivity|]. split; [vm_compute; reflexivity|].
  apply (br_money_parse_roundtrip 163000). reflexivity.
Defined.

(** C9: when the text left after removing the prefix, the blanks and the
    characters other than digits, ',', '.' and '-' is not a number for
    [float], [parse_brl] returns [0.0] (it is total: no exception). *)
Theorem parse_brl_malformed_zero s :
  py_float (brl_text s) = None -> parse_brl (PyStr s) = 0%Q.
Proof.
  intros H. unfold parse_brl. destruct (strip s); [reflexivity|]. rewrite H. reflexivity.
Qed.

Lemma parse_brl_malformed_zero_witness :
  py_float (brl_text (list_ascii_of_string "R$ 1,2,3abc")) = None
  /\ parse_brl (PyStr (list_ascii_of_string "R$ 1,2,3abc")) = 0%Q.
Proof.
  split; [vm_compute; reflexivity|].
  apply parse_brl_malformed_zero. vm_compute. reflexivity.
Defined.

End CodecClaims.

(** ** Installment split *)
Module ParcelasFacts.
Import Parcelas.

Lemma repeat_snoc {A} (x : A) m : repeat x (S m) = repeat x m ++ [x].
Proof. induction m as [|m IH]; [reflexivity|]. change (x :: repeat x (S m) = x :: (repeat x m ++ [x])). rewrite IH. reflexivity. Qed.

Lemma removelast_repeat {A} (x : A) m : removelast (repeat x (S m)) = repeat x m.
Proof. rewrite repeat_snoc. apply removelast_last. Qed.

Lemma last_repeat {A} (x d : A) m : last (repeat x (S m)) d = x.
Proof. induction m as [|m IH]; [reflexivity|]. exact IH. Qed.

End ParcelasFacts.

Module ParcelasClaims.
Import Parcelas.

(** C1 (as the code computes it): in "Total" mode with [n >= 2] the split
    is [n - 1] copies of [base = round(v/n, 2)] followed by
    [round(base + (v - sum(vals)), 2)], all in binary floats; for
    [n <= 1] it is [[round(v, 2)]].  The float sum of the result need not
    be [round(v, 2)]. *)
Theorem calc_valores_parcelas_total v n :
  _calc_valores_parcelas v n "Total" =
  if n <=? 1 then [Binary64.round2 v]
  else
    let base := Binary64.round2 (Binary64.div v (Binary64.of_Z n)) in
    repeat base (Z.to_nat n - 1)
      ++ [Binary64.round2 (Binary64.add base
                             (Binary64.sub v (py_sum (repeat base (Z.to_nat n)))))].
Proof.
  unfold _calc_valores_parcelas. destruct (Z.leb_spec n 1) as [H|H]; [reflexivity|].
  cbv zeta. simpl String.eqb. cbv iota.
  set (base := Binary64.round2 (Binary64.div v (Binary64.of_Z n))).
  destruct (Z.to_nat n) as [|m] eqn:E; [lia|].
  unfold set_last. rewrite ParcelasFacts.removelast_repeat, ParcelasFacts.last_repeat.
  replace (S m - 1)%nat with m by lia. reflexivity.
Qed.

(** C1 fails: a total of R$ 0,30 in three installments gives three times
    0.1, whose float sum (0.30000000000000004) and exact sum both differ
    from [round(0.30, 2)]. *)
Lemma calc_valores_parcelas_drift :
  let v := Codec.parse_brl (Codec.PyStr (list_ascii_of_string "0,30")) in
  let vals := _calc_valores_parcelas v 3 "Total" in
  List.length vals = 3%nat
  /\ Qeq_bool (py_sum vals) (Binary64.round2 v) = false
  /\ Qeq_bool (exact_sum vals) (Binary64.round2 v) = false.
Proof. vm_compute. repeat split; reflexivity. Qed.

End ParcelasClaims.

(** ** The database: statements *)
Module StatementFacts.
Import Ledger.

Lemma fold_fim_some l : forall b, exists f,
  fold_left fim_step l (Some b) = Some f /\ (f = b \/ In f l) /\
  forall g, (g = b \/ In g l) -> fat_dt_fim g <= fat_dt_fim f.
Proof.
  induction l as [|h t IH]; intros b.
  - exists b. split; [reflexivity|]. split; [left; reflexivity|].
    intros g [->|[]]. lia.
  - simpl. destruct (Z.ltb_spec (fat_dt_fim b) (fat_dt_fim h)) as [Hlt|Hge].
    + destruct (IH h) as (f & Hf & Hin & Hmax). exists f. split; [exact Hf|].
      split; [destruct Hin as [->|Hin]; right; [left|right]; auto|].
      intros g [->|[->|Hg]].
      * specialize (Hmax h (or_introl eq_refl)). lia.
      * apply Hmax. left. reflexivity.
      * apply Hmax. right. exact Hg.
    + destruct (IH b) as (f & Hf & Hin & Hmax). exists f. split; [exact Hf|].
      split; [destruct Hin as [->|Hin]; [left|right; right]; auto|].
      intros g [->|[->|Hg]].
      * apply Hmax. left. reflexivity.
      * specialize (Hmax b (or_introl eq_refl)). lia.
      * apply Hmax. right. exact Hg.
Qed.

Lemma first_max_fim_spec l :
  match first_max_fim l with
  | Some f => In f l /\ forall g, In g l -> fat_dt_fim g <= fat_dt_fim f
  | None => l = []
  end.
Proof.
  unfold first_max_fim. destruct l as [|h t]; [reflexivity|].
  simpl. destruct (fold_fim_some t h) as (f & -> & Hin & Hmax).
  split.
  - destruct Hin as [->|Hin]; [left; reflexivity|right; exact Hin].
  - intros g [<-|Hg]; apply Hmax; [left; reflexivity|right; exact Hg].
Qed.

Lemma covers_true cartao_id dt f :
  covers cartao_id dt f = true <->
  fat_conta_id f = cartao_id /\ fat_dt_inicio f <= dt <= fat_dt_fim f.
Proof.
  unfold covers. rewrite !andb_true_iff, Z.eqb_eq, !Z.leb_le. tauto.
Qed.

Lemma Forall2_map_r {A B} (R : A -> B -> Prop) (g : A -> B) l :
  (forall x, In x l -> R x (g x)) -> Forall2 R l (map g l).
Proof.
  induction l as [|x l IH]; intros H; constructor.
  - apply H. left. reflexivity.
  - apply IH. intros y Hy. apply H. right. exact Hy.
Qed.

End StatementFacts.

Module StatementClaims.
Import Ledger.

(** C6: [suggest_fatura_for_date] returns the id of a statement of the card
    whose inclusive period contains the date, with the greatest [dt_fim]
    among those; [None] when no period of the card contains the date.  In
    particular, when exactly one statement covers the date (periods that do
    not overlap), that statement is the answer. *)
Theorem suggest_fatura_for_date_spec d cartao_id dt :
  match suggest_fatura_for_date d cartao_id dt with
  | Some i =>
      exists f, In f (faturas d) /\ fat_id f = i /\ fat_conta_id f = cartao_id /\
        fat_dt_inicio f <= dt <= fat_dt_fim f /\
        forall g, In g (faturas d) -> fat_conta_id g = cartao_id ->
          fat_dt_inicio g <= dt <= fat_dt_fim g -> fat_dt_fim g <= fat_dt_fim f
  | None =>
      forall g, In g (faturas d) -> fat_conta_id g = cartao_id ->
        ~ (fat_dt_inicio g <= dt <= fat_dt_fim g)
  end
  /\ (forall a, In a (faturas d) -> fat_conta_id a = cartao_id ->
        fat_dt_inicio a <= dt <= fat_dt_fim a ->
        (forall g, In g (faturas d) -> fat_conta_id g = cartao_id ->
           fat_dt_inicio g <= dt <= fat_dt_fim g -> g = a) ->
        suggest_fatura_for_date d cartao_id dt = Some (fat_id a)).
Proof.
  assert (Hm := StatementFacts.first_max_fim_spec (filter (covers cartao_id dt) (faturas d))).
  unfold suggest_fatura_for_date. split.
  - destruct (first_max_fim _) as [f|] eqn:E.
    + destruct Hm as [Hin Hmax]. apply filter_In in Hin as [Hin Hc].
      apply StatementFacts.covers_true in Hc as [Hc Hp].
      exists f. repeat split; try assumption; try lia.
      intros g Hg Hgc Hgp. apply Hmax, filter_In. split; [exact Hg|].
      apply StatementFacts.covers_true. split; assumption.
    + intros g Hg Hgc Hgp.
      assert (In g (filter (covers cartao_id dt) (faturas d))) as Hf.
      { apply filter_In. split; [exact Hg|]. apply StatementFacts.covers_true. split; assumption. }
      rewrite Hm in Hf. destruct Hf.
  - intros a Ha Hac Hap Huniq.
    destruct (first_max_fim _) as [f|] eqn:E.
    + destruct Hm as [Hin _]. apply filter_In in Hin as [Hin Hc].
      apply StatementFacts.covers_true in Hc as [Hc Hp].
      rewrite (Huniq f Hin Hc Hp). reflexivity.
    + assert (In a (filter (covers cartao_id dt) (faturas d))) as Hf.
      { apply filter_In. split; [exact Ha|]. apply StatementFacts.covers_true. split; assumption. }
      rewrite Hm in Hf. destruct Hf.
Qed.

(** C7: saving a statement fails, writing nothing, exactly when the start
    date is after the end date.  Otherwise only [faturas] (and its
    sequence) changes: a new "ABERTA" statement is appended when the (card,
    billing month) key is absent; when it is present, the statement with
    that key gets the four new dates and keeps its id, card, billing month
    and status, and every other statement is unchanged. *)
Theorem f_save_upsert d cartao_id competencia ini fim fech venc :
  match f_save d cartao_id competencia ini fim fech venc with
  | inl _ => fim < ini
  | inr d' =>
      ini <= fim /\
      contas d' = contas d /\ categorias d' = categorias d /\
      lancamentos d' = lancamentos d /\ pagamentos_fatura d' = pagamentos_fatura d /\
      if existsb (same_key cartao_id competencia) (faturas d) then
        Forall2 (fun f f' =>
                   fat_id f' = fat_id f /\ fat_conta_id f' = fat_conta_id f /\
                   fat_competencia f' = fat_competencia f /\ fat_status f' = fat_status f /\
                   if same_key cartao_id competencia f then
                     fat_dt_inicio f' = ini /\ fat_dt_fim f' = fim /\
                     fat_dt_fechamento f' = fech /\ fat_dt_vencimento f' = venc
                   else f' = f)
                (faturas d) (faturas d')
      else
        faturas d' = faturas d ++
          [mk_fatura (seq_faturas d + 1) cartao_id competencia ini fim fech venc "ABERTA"]
  end.
Proof.
  unfold f_save. destruct (Z.ltb_spec fim ini) as [Hlt|Hge]; [exact Hlt|].
  destruct (existsb (same_key cartao_id competencia) (faturas d)) eqn:E.
  - cbn [set_faturas contas categorias lancamentos pagamentos_fatura faturas].
    split; [lia|]. do 4 (split; [reflexivity|]).
    apply StatementFacts.Forall2_map_r. intros f _.
    destruct (same_key cartao_id competencia f); simpl; repeat split; reflexivity.
  - cbn [set_faturas contas categorias lancamentos pagamentos_fatura faturas].
    split; [lia|]. repeat split; reflexivity.
Qed.

End StatementClaims.

(** ** The database: page actions *)
Module ActionFacts.
Import Ledger.

Lemma committed_length d ts : (List.length (committed d ts) <= List.length ts)%nat.
Proof.
  revert d. induction ts as [|t ts IH]; intros d; simpl; [lia|].
  destruct (t d) as [d'|]; simpl; [specialize (IH d'); lia|lia].
Qed.

Lemma fechamento_pagar_one d cartao_id choice dt_pg txt desc :
  (List.length (snd (fechamento d cartao_id choice (Pagar dt_pg txt desc))) <= 1)%nat.
Proof.
  unfold fechamento.
  destruct (nth_error _ choice) as [[fid st]|]; simpl; [|lia].
  destruct (find_cora d); simpl; [|lia].
  destruct (String.eqb st "PAGA"); simpl; [lia|].
  destruct (Qle_bool _ 0); simpl; lia.
Qed.

End ActionFacts.

Module ActionClaims.
Import Ledger Examples.

(** C2 (what the code does): paying a statement commits at most one
    transaction, but grouping commits the slip before tagging the incomes
    and ungrouping commits the reset of the incomes before deleting the
    slip, so each leaves an intermediate state committed: after grouping
    [db_receitas], a slip 3 with no tagged income; after ungrouping it, no
    tagged income with slip 3 still present. *)
Theorem boleto_commits_partial :
  (forall d cartao_id choice dt_pg txt desc,
     (List.length (committed d (snd (fechamento d cartao_id choice (Pagar dt_pg txt desc))))
      <= 1)%nat)
  /\ match committed db_receitas (snd gerar_receitas) with
     | [d1; d2] =>
         existsb (is_slip 3) (lancamentos d1)
         && negb (existsb (is_child 3) (lancamentos d1))
         && existsb (is_child 3) (lancamentos d2)
     | _ => false
     end = true
  /\ match committed (run db_receitas (snd gerar_receitas)) (snd (bol_desagrupar true 3)) with
     | [e1; e2] =>
         existsb (is_slip 3) (lancamentos e1)
         && negb (existsb (is_child 3) (lancamentos e1))
         && negb (existsb (is_slip 3) (lancamentos e2))
     | _ => false
     end = true.
Proof.
  split; [|split; vm_compute; reflexivity].
  intros d cartao_id choice dt_pg txt desc.
  eapply Nat.le_trans; [apply ActionFacts.committed_length|].
  apply ActionFacts.fechamento_pagar_one.
Qed.

(** C3 (what the code does): the Fechamento tab identifies the selected
    statement by its position in the list, not by its id.  With the
    statements of [db_faturas] listed newest first, option 1 is February
    (id 2, "ABERTA"), so the guard lets "Marcar como FECHADA" through, and
    the update hits id 1, the paid January statement, which becomes
    "FECHADA". *)
Theorem fechar_uses_position :
  option_map fat_id (nth_error (list_faturas db_faturas 2) 1) = Some 2
  /\ nth_error (fechamento_opts (list_faturas db_faturas 2)) 1 = Some (1, "ABERTA"%string)
  /\ fst (fechamento db_faturas 2 1 Fechar) = Ok
  /\ map fat_status (faturas db_faturas) = ["PAGA"; "ABERTA"; "ABERTA"]%string
  /\ map fat_status (faturas (run db_faturas (snd (fechamento db_faturas 2 1 Fechar))))
     = ["FECHADA"; "ABERTA"; "ABERTA"]%string.
Proof. vm_compute. repeat split; reflexivity. Qed.

(** The status guard of the Fechamento tab: when the selected option shows
    "PAGA", no button commits anything. *)
Theorem fechamento_guard_paga d cartao_id choice fid a :
  nth_error (fechamento_opts (list_faturas d cartao_id)) choice = Some (fid, "PAGA"%string) ->
  snd (fechamento d cartao_id choice a) = [].
Proof.
  intros H. unfold fechamento. rewrite H. simpl.
  destruct a; [reflexivity|reflexivity|]. destruct (find_cora d); reflexivity.
Qed.

Lemma fechamento_guard_paga_witness :
  nth_error (fechamento_opts (list_faturas db_faturas 2)) 2 = Some (2, "PAGA"%string)
  /\ snd (fechamento db_faturas 2 2 Fechar) = [].
Proof.
  split; [vm_compute; reflexivity|].
  apply (fechamento_guard_paga db_faturas 2 2 2 Fechar). vm_compute. reflexivity.
Defined.

End ActionClaims.

(** ** The database: balances *)
Module BalanceFacts.
Import Ledger.

Lemma sum_cents_case (p : lancamento -> bool) ls :
  sum_cents (map (fun l => if p l then lanc_valor l else 0) ls)
  = sum_cents (map lanc_valor (filter p ls)).
Proof.
  induction ls as [|l ls IH]; [reflexivity|]. simpl.
  destruct (p l); simpl; rewrite IH; lia.
Qed.

Lemma liquidada_iff tipo word l :
  String.eqb (lanc_tipo l) tipo
  && (ilike (status_or_pendente l) word
      || match lanc_dt_liquidacao l with Some _ => true | None => false end) = true
  <-> lanc_tipo l = tipo
      /\ (lower (status_or_pendente l) = lower word \/ lanc_dt_liquidacao l <> None).
Proof.
  unfold ilike.
  destruct (String.eqb_spec (lanc_tipo l) tipo) as [Ht|Ht];
  destruct (String.eqb_spec (lower (status_or_pendente l)) (lower word)) as [Hw|Hw];
  destruct (lanc_dt_liquidacao l); simpl; split; intros H;
  try discriminate; try reflexivity; try tauto;
  try (split; [assumption|]); try (left; assumption); try (right; discriminate);
  destruct H as [_ [H|H]]; congruence.
Qed.

End BalanceFacts.

Module BalanceClaims.
Import Ledger Examples.

(** C4 (as the code computes it): the balance of an account is
    [saldo_inicial + receitas - despesas] in float8, each term the float of
    an exact NUMERIC sum; an income counts when its type is "RECEITA" and
    its status (NULL read as "Pendente"), lowercased, is "recebido" or it
    has a settlement date; an expense likewise with "DESPESA" and "pago".
    An unknown account has balance 0. *)
Theorem saldo_conta_real_settled d conta_nome :
  saldo_conta_real d conta_nome =
  match find_conta d conta_nome with
  | None => 0%Q
  | Some c =>
      Binary64.sub
        (Binary64.add (Binary64.of_cents (conta_saldo_inicial c))
           (Binary64.of_cents (sum_cents (map lanc_valor
              (filter receita_liquidada (lancamentos_da_conta d c))))))
        (Binary64.of_cents (sum_cents (map lanc_valor
           (filter despesa_liquidada (lancamentos_da_conta d c)))))
  end
  /\ (forall l, receita_liquidada l = true <->
        lanc_tipo l = "RECEITA"%string
        /\ (lower (status_or_pendente l) = "recebido"%string \/ lanc_dt_liquidacao l <> None))
  /\ (forall l, despesa_liquidada l = true <->
        lanc_tipo l = "DESPESA"%string
        /\ (lower (status_or_pendente l) = "pago"%string \/ lanc_dt_liquidacao l <> None)).
Proof.
  split; [|split; intros l].
  2: exact (BalanceFacts.liquidada_iff "RECEITA" "recebido" l).
  2: exact (BalanceFacts.liquidada_iff "DESPESA" "pago" l).
  unfold saldo_conta_real. destruct (find_conta d conta_nome) as [c|]; [|reflexivity].
  rewrite !BalanceFacts.sum_cents_case. reflexivity.
Qed.

(** C4 fails on its example: opening balance 1000.00, an income of 200.00
    "Recebido" and a pending expense of 50.00 give a balance of 1200.00,
    not 1150.00 (the pending expense is not settled); payable 50.00 and
    receivable 0.00 hold. *)
Lemma saldo_example :
  Qeq_bool (saldo_conta_real db_saldo "Banco") (1150 # 1) = false
  /\ Qeq_bool (saldo_conta_real db_saldo "Banco") (1200 # 1) = true
  /\ Qeq_bool (previsao_pagar_conta db_saldo "Banco") (50 # 1) = true
  /\ Qeq_bool (previsao_receber_conta db_saldo "Banco") 0 = true.
Proof. vm_compute. repeat split; reflexivity. Qed.

End BalanceClaims.

(** ** The database: collection slips *)
Module BoletoFacts.
Import Ledger.

Lemma boleto_tag_not_boleto bid : String.eqb (boleto_tag bid) "Boleto" = false.
Proof. reflexivity. Qed.

Lemma is_slip_reset bid l : is_slip bid (reset_child l) = false.
Proof. unfold is_slip, reset_child, set_status_forma. simpl. apply andb_false_r. Qed.

Lemma child_not_slip bid l : is_child bid l = true -> is_slip bid l = false.
Proof.
  unfold is_child, is_slip, opt_eqb. destruct (lanc_forma_pagamento l) as [s|]; [|discriminate].
  intros H. apply String.eqb_eq in H. subst s.
  rewrite boleto_tag_not_boleto. apply andb_false_r.
Qed.

Lemma filter_map_comm {A} (p : A -> bool) (f : A -> A) l :
  (forall x, p (f x) = p x) -> filter p (map f l) = map f (filter p l).
Proof.
  intros H. induction l as [|x l IH]; [reflexivity|]. simpl.
  rewrite H. destruct (p x); simpl; rewrite IH; reflexivity.
Qed.

Lemma map_ext_in_eq {A B} (f g : A -> B) l :
  (forall x, In x l -> f x = g x) -> map f l = map g l.
Proof. apply map_ext_in. Qed.

Lemma filter_all {A} (p : A -> bool) l : (forall x, In x l -> p x = true) -> filter p l = l.
Proof.
  induction l as [|x l IH]; intros H; [reflexivity|]. simpl.
  rewrite (H x (or_introl eq_refl)), IH; [reflexivity|].
  intros y Hy. apply H. right. exact Hy.
Qed.

(** The desagrupar run: the reset always commits; the delete commits
    unless a payment references a deleted row. *)
Lemma run_desagrupar d bid :
  let L1 := map (fun l => if is_child bid l then reset_child l else l) (lancamentos d) in
  let d1 := set_lancamentos d L1 (seq_lancamentos d) in
  run d (snd (bol_desagrupar true bid)) =
  if existsb (fun pg => existsb (fun l => is_slip bid l && (lanc_id l =? pag_lancamento_saida_id pg)) L1)
             (pagamentos_fatura d)
  then d1
  else set_lancamentos d1 (filter (fun l => negb (is_slip bid l)) L1) (seq_lancamentos d).
Proof.
  cbv zeta. unfold bol_desagrupar, run, update_lancamentos, delete_lancamentos.
  cbn [negb snd committed].
  cbn [pagamentos_fatura lancamentos seq_lancamentos set_lancamentos].
  destruct (existsb _ _); reflexivity.
Qed.

(** Postgres' rounding of a non-negative float is non-negative. *)
Lemma scale10_nonneg m e : 0 <= m -> 0 <= Qnum (Numeric.scale10 m e).
Proof.
  intros Hm. unfold Numeric.scale10. destruct (0 <=? e); simpl; [|exact Hm].
  apply Z.mul_nonneg_nonneg; [exact Hm|]. apply Z.pow_nonneg. lia.
Qed.

Lemma repr_candidates_nonneg x p : 0 < Qnum x ->
  Forall (fun c => 0 <= Qnum c) (Numeric.repr_candidates x p).
Proof.
  intros Hx. unfold Numeric.repr_candidates.
  set (a := Qnum x). set (dd := Zpos (Qden x)).
  set (s := Numeric.flog10 a dd - p + 1).
  assert (Hlo : 0 <= (if 0 <=? s then a / (dd * 10 ^ s) else a * 10 ^ (- s) / dd)).
  { unfold dd. destruct (Z.leb_spec 0 s).
    - apply Z.div_pos; [lia|]. apply Z.mul_pos_pos; [lia|]. apply Z.pow_pos_nonneg; lia.
    - apply Z.div_pos; [|lia]. apply Z.mul_nonneg_nonneg; [lia|]. apply Z.pow_nonneg. lia. }
  cbv zeta. revert Hlo.
  generalize (if 0 <=? s then a / (dd * 10 ^ s) else a * 10 ^ (- s) / dd).
  intros lo Hlo.
  apply Forall_forall. intros c Hc. apply filter_In in Hc as [Hc _].
  destruct (Qle_bool _ _); simpl in Hc;
    repeat destruct Hc as [<-|Hc]; try contradiction;
    apply scale10_nonneg; lia.
Qed.

Lemma repr_search_nonneg f x p : 0 < Qnum x -> 0 <= Qnum (Numeric.repr_search f x p).
Proof.
  revert p. induction f as [|f IH]; intros p Hx; simpl; [lia|].
  assert (H := repr_candidates_nonneg x p Hx).
  destruct (Numeric.repr_candidates x p) as [|c cs]; [apply IH; exact Hx|].
  inversion H; assumption.
Qed.

Lemma to_numeric2_nonneg x : 0 < Qnum x -> 0 <= Numeric.to_numeric2 x.
Proof.
  intros Hx. unfold Numeric.to_numeric2, Numeric.py_repr_value.
  destruct (Z.eqb_spec (Qnum x) 0); [lia|]. destruct (Z.ltb_spec (Qnum x) 0); [lia|].
  assert (Hv := repr_search_nonneg 17 x 1 Hx).
  unfold Numeric.round_half_away.
  set (v := Numeric.repr_search 17 x 1) in *.
  destruct (Z.ltb_spec (Qnum v * 100) 0); [lia|].
  assert (0 <= Z.abs (Qnum v * 100) / Zpos (Qden v)) by (apply Z.div_pos; lia).
  destruct (_ <=? _); lia.
Qed.

End BoletoFacts.

Module BoletoFacts2.
Import Ledger BoletoFacts.

Lemma qle_false_pos x : Qle_bool x 0 = false -> 0 < Qnum x.
Proof.
  unfold Qle_bool. simpl. intros H. apply Z.leb_gt in H. lia.
Qed.

Lemma existsb_above ids s : Forall (fun i => i <= s) ids -> existsb (Z.eqb (s + 1)) ids = false.
Proof.
  induction 1 as [|i ids Hi _ IH]; [reflexivity|]. simpl.
  rewrite IH. destruct (Z.eqb_spec (s + 1) i); [lia|reflexivity].
Qed.

Lemma boleto_not_tag bid : String.eqb "Boleto" (boleto_tag bid) = false.
Proof. rewrite String.eqb_sym. apply boleto_tag_not_boleto. Qed.

Lemma is_slip_below bid l : lanc_id l < bid -> is_slip bid l = false.
Proof.
  intros H. unfold is_slip. destruct (Z.eqb_spec (lanc_id l) bid); [lia|reflexivity].
Qed.

Lemma existsb_ext_map {A B} (g : B -> bool) (f : A -> B) (h : A -> bool) l :
  (forall x, g (f x) = h x) -> existsb g (map f l) = existsb h l.
Proof. intros H. induction l as [|x l IH]; [reflexivity|]. simpl. rewrite H, IH. reflexivity. Qed.

Lemma existsb_ext' {A} (g h : A -> bool) l :
  (forall x, g x = h x) -> existsb g l = existsb h l.
Proof. intros H. induction l as [|x l IH]; [reflexivity|]. simpl. rewrite H, IH. reflexivity. Qed.

(** Resetting the children does not change which rows are the slip, nor
    their ids: the payment check sees the same rows before and after. *)
Lemma slip_refs_reset d bid :
  existsb (fun pg => existsb (fun l => is_slip bid l && (lanc_id l =? pag_lancamento_saida_id pg))
            (map (fun l => if is_child bid l then reset_child l else l) (lancamentos d)))
          (pagamentos_fatura d)
  = existsb (fun pg => existsb (fun l => is_slip bid l && (lanc_id l =? pag_lancamento_saida_id pg))
              (lancamentos d)) (pagamentos_fatura d).
Proof.
  apply existsb_ext'. intros pg. apply existsb_ext_map. intros l.
  destruct (is_child bid l) eqn:E; [|reflexivity].
  rewrite is_slip_reset, (child_not_slip bid l E). reflexivity.
Qed.

End BoletoFacts2.

Module BoletoClaims.
Import Ledger Examples BoletoFacts BoletoFacts2.

(** C10 (what the code does): "Desagrupar" with id [bid] resets every
    transaction whose payment method is exactly "Boleto:<bid>" to status
    "Pendente" with no payment method, whatever it was.  It deletes the
    transaction [bid] only if it is a "RECEITA" with payment method
    "Boleto", and only when no payment row references such a row: then the
    deletion is refused and the reset stays.  Every other transaction, and
    every other table, is left as it was. *)
Theorem desagrupar_frame d bid :
  let d' := run d (snd (bol_desagrupar true bid)) in
  contas d' = contas d /\ categorias d' = categorias d /\ faturas d' = faturas d /\
  pagamentos_fatura d' = pagamentos_fatura d /\ seq_lancamentos d' = seq_lancamentos d /\
  lancamentos d' =
    if existsb (fun pg => existsb (fun l => is_slip bid l && (lanc_id l =? pag_lancamento_saida_id pg))
                            (lancamentos d)) (pagamentos_fatura d)
    then map (fun l => if is_child bid l then reset_child l else l) (lancamentos d)
    else map (fun l => if is_child bid l then reset_child l else l)
           (filter (fun l => negb (is_slip bid l)) (lancamentos d)).
Proof.
  cbv zeta. rewrite run_desagrupar. cbv zeta. rewrite slip_refs_reset.
  destruct (existsb _ _); cbn [set_lancamentos contas categorias faturas pagamentos_fatura
                                seq_lancamentos lancamentos];
    repeat split.
  apply filter_map_comm. intros l.
  destruct (is_child bid l) eqn:E; [|reflexivity].
  rewrite is_slip_reset, (child_not_slip bid l E). reflexivity.
Qed.

(** C10 fails: ungrouping id 5 when no transaction 5 exists still changes
    a received income whose payment method reads "Boleto:5". *)
Lemma desagrupar_sem_boleto :
  let d' := run db_boleto_texto (snd (bol_desagrupar true 5)) in
  existsb (fun l => lanc_id l =? 5) (lancamentos db_boleto_texto) = false
  /\ d' <> db_boleto_texto
  /\ map lanc_status (lancamentos d') = [Some "Pendente"%string]
  /\ map lanc_forma_pagamento (lancamentos d') = [None].
Proof.
  cbv zeta. split; [reflexivity|]. split; [|split; vm_compute; reflexivity].
  intros H. apply (f_equal (fun d => map lanc_status (lancamentos d))) in H.
  vm_compute in H. discriminate H.
Qed.

(** C5 (what the code does): grouping the transactions [ids] appends a
    pending "RECEITA" slip with the next id [bid], payment method "Boleto"
    and the amount [total] as NUMERIC, and tags the selected transactions
    "Agrupada" / "Boleto:<bid>".  Ungrouping [bid] then deletes the slip
    and leaves each selected transaction with status "Pendente" and no
    payment method: the state before grouping comes back only for
    transactions that had exactly those values, and the id sequence has
    advanced.  Assumed: the total rounded to cents fits NUMERIC(14,2)
    (below 10^12; a larger one makes the INSERT fail and nothing is
    written), the ids handed out so far are at most the sequence's value,
    and no transaction is already tagged "Boleto:<bid>". *)
Theorem agrupar_desagrupar d ids total desc venc conta_id cat_id :
  ids <> [] -> Qle_bool total 0 = false -> Numeric.to_numeric2 total < 10 ^ 14 ->
  Forall (fun l => lanc_id l <= seq_lancamentos d) (lancamentos d) ->
  Forall (fun i => i <= seq_lancamentos d) ids ->
  Forall (fun p => pag_lancamento_saida_id p <= seq_lancamentos d) (pagamentos_fatura d) ->
  Forall (fun l => is_child (seq_lancamentos d + 1) l = false) (lancamentos d) ->
  let bid := seq_lancamentos d + 1 in
  let d1 := run d (snd (bol_gerar d ids total desc venc conta_id cat_id)) in
  d1 = set_lancamentos d
         (map (fun l => if existsb (Z.eqb (lanc_id l)) ids
                        then set_status_forma (Some "Agrupada"%string) (Some (boleto_tag bid)) l
                        else l)
              (lancamentos d)
          ++ [mk_lancamento bid "RECEITA" desc (Numeric.to_numeric2 total) venc None conta_id
                None cat_id (Some "Boleto"%string) (Some "Pendente"%string) None]) bid
  /\ run d1 (snd (bol_desagrupar true bid)) =
     set_lancamentos d
       (map (fun l => if existsb (Z.eqb (lanc_id l)) ids then reset_child l else l)
            (lancamentos d)) bid.
Proof.
  intros Hids Hq Hfit Hl Hi Hp Hc. cbv zeta.
  set (bid := seq_lancamentos d + 1).
  set (slip := mk_lancamento bid "RECEITA" desc (Numeric.to_numeric2 total) venc None conta_id
                 None cat_id (Some "Boleto"%string) (Some "Pendente"%string) None).
  set (tag := fun l => if existsb (Z.eqb (lanc_id l)) ids
                       then set_status_forma (Some "Agrupada"%string) (Some (boleto_tag bid)) l
                       else l).
  assert (Hnn := to_numeric2_nonneg total (qle_false_pos total Hq)).
  assert (Hslip : existsb (Z.eqb bid) ids = false) by (apply existsb_above; exact Hi).
  assert (Hgroup : run d (snd (bol_gerar d ids total desc venc conta_id cat_id))
                   = set_lancamentos d (map tag (lancamentos d) ++ [slip]) bid).
  { unfold bol_gerar. destruct ids as [|i0 is0]; [contradiction|]. rewrite Hq.
    unfold run, committed, insert_lancamento, update_lancamentos. cbn [snd].
    fold bid. fold slip. cbn [lanc_valor slip].
    assert (Hf : Numeric.fits_numeric2 (Numeric.to_numeric2 total) = true)
      by (unfold Numeric.fits_numeric2; apply Z.ltb_lt; lia).
    rewrite Hf. cbn [negb].
    destruct (Z.ltb_spec (Numeric.to_numeric2 total) 0) as [Hneg|_]; [lia|].
    cbn [last lancamentos set_lancamentos seq_lancamentos lanc_id slip].
    rewrite map_app. cbn [map]. unfold slip at 2. cbn [lanc_id]. rewrite Hslip.
    reflexivity. }
  split; [exact Hgroup|]. rewrite Hgroup. rewrite run_desagrupar. cbv zeta.
  cbn [lancamentos pagamentos_fatura set_lancamentos seq_lancamentos].
  (* the children are exactly the tagged rows *)
  assert (Hmap : map (fun l => if is_child bid l then reset_child l else l)
                   (map tag (lancamentos d) ++ [slip])
                 = map (fun l => if existsb (Z.eqb (lanc_id l)) ids then reset_child l else l)
                     (lancamentos d) ++ [slip]).
  { rewrite map_app, map_map. apply f_equal2.
    - apply map_ext_in_eq. intros l Hin. unfold tag.
      destruct (existsb (Z.eqb (lanc_id l)) ids).
      + unfold is_child at 1, opt_eqb. cbn [set_status_forma lanc_forma_pagamento].
        rewrite String.eqb_refl. reflexivity.
      + assert (Hcl := proj1 (Forall_forall _ _) Hc l Hin). cbv beta in Hcl.
        fold bid in Hcl. rewrite Hcl. reflexivity.
    - cbn [map]. unfold is_child at 1, opt_eqb, slip at 1. cbn [lanc_forma_pagamento].
      rewrite boleto_not_tag. reflexivity. }
  rewrite Hmap.
  assert (Hbelow : forall l, In l (lancamentos d) -> lanc_id l < bid).
  { intros l Hin. apply (proj1 (Forall_forall _ _) Hl) in Hin. unfold bid. lia. }
  assert (Hslip_is : is_slip bid slip = true).
  { unfold is_slip, slip. cbn [lanc_id lanc_tipo lanc_forma_pagamento]. rewrite Z.eqb_refl. reflexivity. }
  assert (Hfk : existsb (fun pg => existsb (fun l => is_slip bid l && (lanc_id l =? pag_lancamento_saida_id pg))
                   (map (fun l => if existsb (Z.eqb (lanc_id l)) ids then reset_child l else l)
                      (lancamentos d) ++ [slip])) (pagamentos_fatura d) = false).
  { apply not_true_iff_false. intros E. apply existsb_exists in E as [pg [Hpg E]].
    apply existsb_exists in E as [l [Hin E]]. apply andb_true_iff in E as [Es Eid].
    apply Z.eqb_eq in Eid. apply (proj1 (Forall_forall _ _) Hp) in Hpg.
    apply in_app_or in Hin as [Hin|[<-|[]]].
    - apply in_map_iff in Hin as [l0 [<- Hin0]].
      assert (lanc_id (if existsb (Z.eqb (lanc_id l0)) ids then reset_child l0 else l0) < bid)
        as Hlt.
      { specialize (Hbelow l0 Hin0). destruct (existsb (Z.eqb (lanc_id l0)) ids); exact Hbelow. }
      rewrite is_slip_below in Es by exact Hlt. discriminate.
    - cbn [lanc_id slip] in Eid. unfold bid in Eid. lia. }
  rewrite Hfk. rewrite filter_app. cbn [filter]. rewrite Hslip_is. cbn [negb].
  rewrite app_nil_r, filter_all.
  - reflexivity.
  - intros l Hin. apply in_map_iff in Hin as [l0 [<- Hin0]].
    rewrite is_slip_below; [reflexivity|].
    specialize (Hbelow l0 Hin0). destruct (existsb (Z.eqb (lanc_id l0)) ids); exact Hbelow.
Qed.

Lemma agrupar_desagrupar_witness :
  [1; 2] <> [] /\ Qle_bool total_receitas 0 = false /\
  Numeric.to_numeric2 total_receitas < 10 ^ 14 /\
  run (run db_receitas (snd gerar_receitas)) (snd (bol_desagrupar true 3)) =
  set_lancamentos db_receitas
    (map (fun l => if existsb (Z.eqb (lanc_id l)) [1; 2] then reset_child l else l)
         (lancamentos db_receitas)) 3.
Proof.
  split; [discriminate|]. split; [vm_compute; reflexivity|]. split; [vm_compute; reflexivity|].
  refine (proj2 (agrupar_desagrupar db_receitas [1; 2] total_receitas "Boleto agrupado" 110 1 None
                   _ _ _ _ _ _ _));
    [discriminate | vm_compute; reflexivity | vm_compute; reflexivity
    | repeat constructor; vm_compute; discriminate ..].
Defined.

(** C5 fails: grouping the 30.00 income paid by "PIX" (no status) and the
    pending 70.00 income creates a slip of 100.00, but ungrouping it
    leaves both with status "Pendente" and no payment method, and the
    id sequence advanced: the state differs from the one before. *)
Lemma agrupar_desagrupar_receitas :
  let d1 := run db_receitas (snd gerar_receitas) in
  let d2 := run d1 (snd (bol_desagrupar true 3)) in
  map lanc_valor (filter (is_slip 3) (lancamentos d1)) = [10000]
  /\ d2 <> db_receitas
  /\ map lanc_forma_pagamento (lancamentos db_receitas) = [Some "PIX"%string; None]
  /\ map lanc_status (lancamentos db_receitas) = [None; Some "Pendente"%string]
  /\ map lanc_forma_pagamento (lancamentos d2) = [None; None]
  /\ map lanc_status (lancamentos d2) = [Some "Pendente"%string; Some "Pendente"%string].
Proof.
  cbv zeta. split; [vm_compute; reflexivity|]. split.
  - intros H. apply (f_equal (fun d => map lanc_status (lancamentos d))) in H.
    vm_compute in H. discriminate H.
  - repeat split; vm_compute; reflexivity.
Qed.

End BoletoClaims.

Module LoginFacts.
Import Codec Login.

Lemma str_eqb_spec a b : str_eqb a b = true <-> a = b.
Proof. unfold str_eqb. destruct (list_eq_dec ascii_dec a b); split; congruence. Qed.

Lemma str_eqb_refl a : str_eqb a a = true.
Proof. apply str_eqb_spec; reflexivity. Qed.

Lemma str_eqb_sym a b : str_eqb a b = str_eqb b a.
Proof.
  destruct (str_eqb a b) eqn:E; symmetry.
  - apply str_eqb_spec in E; subst; apply str_eqb_refl.
  - destruct (str_eqb b a) eqn:F; [|reflexivity].
    apply str_eqb_spec in F; subst. now rewrite str_eqb_refl in E.
Qed.


Lemma drop_space_len s : (List.length (drop_space s) <= List.length s)%nat.
Proof. induction s as [|c s IH]; simpl; [lia|]. destruct (is_space c); simpl; lia. Qed.

Lemma drop_space_suffix s : exists pre, s = pre ++ drop_space s.
Proof.
  induction s as [|c s [pre IH]]; simpl; [exists []; reflexivity|].
  destruct (is_space c); [exists (c :: pre); simpl; congruence|exists []; reflexivity].
Qed.

Lemma strip_len s : (List.length (strip s) <= List.length (drop_space s))%nat.
Proof.
  unfold strip. rewrite length_rev.
  rewrite <- (length_rev (drop_space s)). apply drop_space_len.
Qed.

Lemma strip_first s : s <> [] -> strip s = s -> first_ok s.
Proof.
  intros Hne Hs. destruct s as [|c r]; [congruence|].
  exists c, r; split; [reflexivity|].
  destruct (is_space c) eqn:E; [|reflexivity].
  exfalso. pose proof (strip_len (c :: r)) as H1.
  simpl in H1. rewrite E in H1. pose proof (drop_space_len r).
  rewrite Hs in H1. simpl in H1. lia.
Qed.

Lemma strip_last s : s <> [] -> strip s = s -> last_ok s.
Proof.
  intros Hne Hs. destruct (exists_last Hne) as (r & c & ->).
  exists r, c; split; [reflexivity|].
  destruct (is_space c) eqn:E; [|reflexivity].
  exfalso. destruct (drop_space_suffix (r ++ [c])) as [pre Hpre].
  remember (drop_space (r ++ [c])) as t eqn:Ht.
  assert (Hlen : (List.length (strip (r ++ [c])) <= List.length t - 1)%nat).
  { unfold strip. rewrite <- Ht, length_rev.
    destruct t as [|x t'] using rev_ind.
    - simpl. lia.
    - clear IHt'. 
      assert (x = c).
      { rewrite app_assoc in Hpre. apply app_inj_tail in Hpre. symmetry; apply Hpre. }
      subst x. rewrite rev_app_distr. simpl. rewrite E.
      rewrite length_app. simpl. pose proof (drop_space_len (rev t')).
      rewrite length_rev in H. lia. }
  rewrite Hs in Hlen. pose proof (drop_space_len (r ++ [c])). rewrite <- Ht in H.
  rewrite length_app in *. simpl in *. lia.
Qed.

Lemma strip_ends s : first_ok s -> last_ok s -> strip s = s.
Proof.
  intros (c & r & -> & Hc) (r' & c' & Hs & Hc').
  unfold strip.
  assert (E : drop_space (c :: r) = c :: r) by (simpl; rewrite Hc; reflexivity).
  rewrite E, Hs, rev_app_distr. simpl. rewrite Hc'. simpl. now rewrite rev_involutive.
Qed.

Lemma first_ok_app a b : first_ok a -> first_ok (a ++ b).
Proof. intros (c & r & -> & H). exists c, (r ++ b). auto. Qed.

Lemma last_ok_app a b : last_ok b -> last_ok (a ++ b).
Proof. intros (r & c & -> & H). exists (a ++ r), c. rewrite app_assoc. auto. Qed.

Lemma join_cons sep x xs : xs <> [] -> join sep (x :: xs) = x ++ sep ++ join sep xs.
Proof. destruct xs; [congruence|reflexivity]. Qed.

Lemma join_first sep l : Forall first_ok l -> l <> [] -> first_ok (join sep l).
Proof.
  intros H Hne. destruct H as [|x xs Hx _]; [congruence|].
  destruct xs as [|y ys]; [exact Hx|]. rewrite join_cons by discriminate.
  apply first_ok_app, Hx.
Qed.

Lemma join_last sep l : Forall last_ok l -> l <> [] -> last_ok (join sep l).
Proof.
  induction 1 as [|x xs Hx Hxs IH]; intros Hne; [congruence|].
  destruct xs as [|y ys]; [exact Hx|]. rewrite join_cons by discriminate.
  apply last_ok_app, last_ok_app, IH. discriminate.
Qed.

Lemma split_on_nomem c x : ~ In c x -> split_on c x = [x].
Proof.
  induction x as [|a x IH]; intros Hn; [reflexivity|]. simpl.
  destruct (Ascii.eqb_spec a c) as [->|Hne]; [exfalso; apply Hn; left; reflexivity|].
  rewrite IH; [reflexivity|]. intros H; apply Hn; right; exact H.
Qed.

Lemma split_on_app c x y : ~ In c x -> split_on c (x ++ c :: y) = x :: split_on c y.
Proof.
  induction x as [|a x IH]; intros Hn; simpl.
  - now rewrite Ascii.eqb_refl.
  - destruct (Ascii.eqb_spec a c) as [->|Hne]; [exfalso; apply Hn; left; reflexivity|].
    rewrite IH; [reflexivity|]. intros H; apply Hn; right; exact H.
Qed.

Lemma split_join c l : Forall (fun x => ~ In c x) l -> l <> [] -> split_on c (join [c] l) = l.
Proof.
  induction 1 as [|x xs Hx Hxs IH]; intros Hne; [congruence|].
  destruct xs as [|y ys]; [apply split_on_nomem, Hx|].
  rewrite join_cons by discriminate. cbn [app]. rewrite split_on_app by exact Hx.
  rewrite IH by discriminate. reflexivity.
Qed.

Lemma split_first_app c u p : ~ In c u -> split_first c (u ++ c :: p) = (u, p).
Proof.
  induction u as [|a u IH]; intros Hn; simpl.
  - now rewrite Ascii.eqb_refl.
  - destruct (Ascii.eqb_spec a c) as [->|Hne]; [exfalso; apply Hn; left; reflexivity|].
    rewrite IH; [reflexivity|]. intros H; apply Hn; right; exact H.
Qed.

Lemma mem_app_cons a u p : mem a (u ++ a :: p) = true.
Proof. unfold mem. apply existsb_exists. exists a. split; [apply in_or_app; right; left; reflexivity|apply Ascii.eqb_refl]. Qed.

Lemma find_app {A} (f : A -> bool) l1 l2 :
  find f (l1 ++ l2) = match find f l1 with Some x => Some x | None => find f l2 end.
Proof. induction l1 as [|a l IH]; simpl; [reflexivity|]. destruct (f a); auto. Qed.

Lemma dict_get_set k u v d :
  dict_get k (dict_set u v d) = if str_eqb u k then Some v else dict_get k d.
Proof.
  unfold dict_get, dict_set.
  destruct (existsb (fun e => str_eqb (fst e) u) d) eqn:Ex.
  - destruct (str_eqb u k) eqn:Euk.
    + apply str_eqb_spec in Euk; subst u.
      induction d as [|[a b] d IH]; simpl in *; [discriminate|].
      destruct (str_eqb a k) eqn:Eak; simpl; [now rewrite str_eqb_refl|].
      rewrite Eak. apply IH, Ex.
    + clear Ex. induction d as [|[a b] d IH]; simpl; [reflexivity|].
      destruct (str_eqb a u) eqn:Eau; simpl.
      * apply str_eqb_spec in Eau; subst a. rewrite Euk. exact IH.
      * destruct (str_eqb a k); [reflexivity|exact IH].
  - rewrite find_app.
    destruct (find (fun e => str_eqb (fst e) k) d) eqn:F.
    + destruct (str_eqb u k) eqn:Euk; [|reflexivity].
      apply find_some in F as [Hin Hk].
      apply str_eqb_spec in Euk, Hk. subst.
      assert (existsb (fun e => str_eqb (fst e) (fst p)) d = true)
        by (apply existsb_exists; exists p; split; [exact Hin|apply str_eqb_refl]).
      congruence.
    + simpl. destruct (str_eqb u k); reflexivity.
Qed.

Lemma dict_set_nonnil u v d : dict_set u v d <> [].
Proof.
  unfold dict_set. destruct (existsb _ d) eqn:E.
  - destruct d; [discriminate|discriminate].
  - destruct d; discriminate.
Qed.

Section Sha.
Variable sha : str -> str.


Lemma piece_ends e : well_formed e -> first_ok (piece e) /\ last_ok (piece e).
Proof.
  intros (H1 & H2 & _ & _ & H5 & H6 & _). unfold piece. split.
  - apply first_ok_app, strip_first; assumption.
  - change (":"%char :: snd e) with ([":"%char] ++ snd e).
    apply last_ok_app, last_ok_app, strip_last; assumption.
Qed.

Lemma parse_piece users e : well_formed e ->
  parse_part sha users (piece e) = dict_set (fst e) (sha (snd e)) users.
Proof.
  intros Hw. destruct (piece_ends e Hw) as [Hf Hl].
  unfold parse_part. rewrite (strip_ends _ Hf Hl).
  destruct Hw as (H1 & H2 & H3 & _ & H5 & H6 & _).
  unfold piece. rewrite mem_app_cons.
  destruct (fst e) as [|a u] eqn:Eu; [congruence|].
  simpl orb. rewrite <- Eu. rewrite split_first_app by (rewrite Eu; exact H3).
  cbv zeta. rewrite Eu in *. rewrite H2, H6.
  destruct (snd e) as [|b p]; [congruence|]. reflexivity.
Qed.

Lemma fold_pieces entries users : Forall well_formed entries ->
  fold_left (parse_part sha) (map piece entries) users
  = fold_left (fun d e => dict_set (fst e) (sha (snd e)) d) entries users.
Proof.
  intros H. revert users. induction H as [|e es He _ IH]; intros users; [reflexivity|].
  simpl. rewrite parse_piece by exact He. apply IH.
Qed.

Lemma fold_get k entries : forall d0 acc, dict_get k d0 = option_map sha acc ->
  dict_get k (fold_left (fun d e => dict_set (fst e) (sha (snd e)) d) entries d0)
  = option_map sha (fold_left (fun acc e => if str_eqb (fst e) k then Some (snd e) else acc)
                              entries acc).
Proof.
  induction entries as [|e es IH]; intros d0 acc H; [exact H|].
  simpl. apply IH. rewrite dict_get_set.
  destruct (str_eqb (fst e) k); [reflexivity|exact H].
Qed.

Lemma fold_nonnil entries d0 : entries <> [] ->
  fold_left (fun d e => dict_set (fst e) (sha (snd e)) d) entries d0 <> [].
Proof.
  revert d0. induction entries as [|e es IH]; intros d0 Hne; [congruence|].
  simpl. destruct es as [|e' es'].
  - apply dict_set_nonnil.
  - apply IH. discriminate.
Qed.

Lemma parse_users_text entries : Forall well_formed entries ->
  _parse_users sha (app_users_text entries)
  = fold_left (fun d e => dict_set (fst e) (sha (snd e)) d) entries [].
Proof.
  intros H. unfold _parse_users, app_users_text.
  destruct entries as [|e es] eqn:Ee; [reflexivity|].
  rewrite <- Ee in *. assert (Hne : map piece entries <> []) by (subst; discriminate).
  assert (Hp : Forall (fun x => first_ok x /\ last_ok x) (map piece entries)).
  { apply Forall_map. eapply Forall_impl; [|exact H]. apply piece_ends. }
  change (map (fun e => fst e ++ ":"%char :: snd e) entries) with (map piece entries).
  rewrite strip_ends.
  2: { apply join_first; [|exact Hne]. eapply Forall_impl; [|exact Hp]. intros x [Hx _]; exact Hx. }
  2: { apply join_last; [|exact Hne]. eapply Forall_impl; [|exact Hp]. intros x [_ Hx]; exact Hx. }
  rewrite split_join; [apply fold_pieces, H|..|exact Hne].
  apply Forall_map. eapply Forall_impl; [|exact H].
  intros [u p] (_ & _ & _ & H4 & _ & _ & H7). unfold piece. simpl in *.
  intros Hin. apply in_app_or in Hin as [Hin|[Hin|Hin]]; [exact (H4 Hin)|discriminate Hin|exact (H7 Hin)].
Qed.

End Sha.
End LoginFacts.

Module LoginExtras.
Import Codec Login LoginFacts.

(** X2: when the APP_USERS text is built from well-formed user:password entries joined by ';', [require_login] answers NaoConfigurado for no entries; otherwise it looks up the stripped user name, uses the password of the last entry for that name, and accepts exactly when its hash equals the hash of the typed password. *)
Theorem require_login_entries (sha : str -> str) entries u p :
  Forall well_formed entries ->
  require_login sha (app_users_text entries) u p =
  match entries with
  | [] => NaoConfigurado
  | _ =>
      match last_pass (strip u) entries with
      | Some q => if str_eqb (sha q) (sha p) then Aceito (strip u) else Recusado
      | None => Recusado
      end
  end.
Proof.
  intros H. unfold require_login. rewrite parse_users_text by exact H.
  destruct entries as [|e es] eqn:Ee; [reflexivity|]. rewrite <- Ee.
  destruct (fold_left (fun d e => dict_set (fst e) (sha (snd e)) d) entries []) as [|x xs] eqn:F.
  { exfalso. revert F. apply fold_nonnil. subst; discriminate. }
  rewrite <- F. rewrite (fold_get sha (strip u) entries [] None) by reflexivity.
  unfold last_pass. destruct (fold_left _ entries None); reflexivity.
Qed.

Import Examples.

Lemma require_login_entries_witness :
  Forall well_formed wl_entries /\
  require_login (fun s => s) (app_users_text wl_entries)
    (list_ascii_of_string " hugo ") (list_ascii_of_string "Se:nha")
  = Aceito (list_ascii_of_string "hugo").
Proof.
  assert (HW : Forall well_formed wl_entries).
  { repeat constructor; vm_compute; try reflexivity; intuition discriminate. }
  split; [exact HW|].
  rewrite (require_login_entries (fun s => s) wl_entries _ _ HW). vm_compute. reflexivity.
Defined.

End LoginExtras.

Module PagesFacts.
Import Ledger Pages.

Lemma run_one d (t : txn) : run d [t] = match t d with Some d' => d' | None => d end.
Proof. unfold run. simpl. destruct (t d); reflexivity. Qed.

Lemma sum_cents_app a b : sum_cents (a ++ b) = sum_cents a + sum_cents b.
Proof. induction a as [|x a IH]; simpl; [reflexivity|]. rewrite IH. lia. Qed.

(** The effect of a successful payment transaction on the ledger. *)
Lemma pagar_txn_effect fid cora_id cat desc dt valor d d' :
  pagar_txn fid cora_id cat desc dt valor d = Some d' ->
  contas d' = contas d /\
  lancamentos d' = lancamentos d ++
    [mk_lancamento (seq_lancamentos d + 1) "DESPESA" desc valor dt (Some dt) cora_id None cat
       (Some "Transferência"%string) (Some "Pago"%string) None] /\ 0 <= valor.
Proof.
  unfold pagar_txn, insert_lancamento. cbv zeta. cbn [lanc_valor].
  destruct (negb (Numeric.fits_numeric2 valor)); [discriminate|].
  destruct (valor <? 0) eqn:Ev; [discriminate|].
  destruct (negb _); [discriminate|].
  destruct (existsb _ _); [discriminate|].
  intros H; injection H as <-. apply Z.ltb_ge in Ev.
  split; [reflexivity|split; [reflexivity|exact Ev]].
Qed.

Lemma fold_venc_some l : forall b, exists f,
  fold_left venc_step l (Some b) = Some f /\ (f = b \/ In f l) /\
  forall g, (g = b \/ In g l) -> fat_dt_vencimento f <= fat_dt_vencimento g.
Proof.
  induction l as [|h t IH]; intros b.
  - exists b. split; [reflexivity|]. split; [left; reflexivity|].
    intros g [->|[]]. lia.
  - simpl. destruct (Z.ltb_spec (fat_dt_vencimento h) (fat_dt_vencimento b)) as [Hlt|Hge].
    + destruct (IH h) as (f & Hf & Hin & Hmin). exists f. split; [exact Hf|].
      split; [destruct Hin as [->|Hin]; right; [left|right]; auto|].
      intros g [->|[->|Hg]].
      * specialize (Hmin h (or_introl eq_refl)). lia.
      * apply Hmin. left. reflexivity.
      * apply Hmin. right. exact Hg.
    + destruct (IH b) as (f & Hf & Hin & Hmin). exists f. split; [exact Hf|].
      split; [destruct Hin as [->|Hin]; [left|right; right]; auto|].
      intros g [->|[->|Hg]].
      * apply Hmin. left. reflexivity.
      * specialize (Hmin b (or_introl eq_refl)). lia.
      * apply Hmin. right. exact Hg.
Qed.

End PagesFacts.

Module PagesExtras.
Import Ledger Pages PagesFacts.

(** X3: a successful payment transaction of the Fechamento tab leaves [total_fatura] unchanged for every statement: the new row is an expense with no fatura_id. *)
Theorem pagar_total_fatura fid cora_id cat desc dt valor d d' :
  pagar_txn fid cora_id cat desc dt valor d = Some d' ->
  forall f, total_fatura d' f = total_fatura d f.
Proof.
  intros H f. destruct (pagar_txn_effect _ _ _ _ _ _ _ _ H) as (_ & Hl & _).
  unfold total_fatura. rewrite Hl, filter_app. simpl. now rewrite app_nil_r.
Qed.

(** X4: after a successful payment of [valor] cents from the account found by name, [saldo_conta_real] of that account is the opening balance plus its settled incomes, minus its settled expenses plus [valor]. *)
Theorem pagar_saldo_conta fid cat desc dt valor d d' nome c :
  find_conta d nome = Some c ->
  pagar_txn fid (conta_id c) cat desc dt valor d = Some d' ->
  saldo_conta_real d' nome =
  Binary64.sub
    (Binary64.add (Binary64.of_cents (conta_saldo_inicial c))
                  (Binary64.of_cents (receitas_liquidadas d c)))
    (Binary64.of_cents (despesas_liquidadas d c + valor)).
Proof.
  intros Hc H. destruct (pagar_txn_effect _ _ _ _ _ _ _ _ H) as (Hk & Hl & _).
  assert (Hf : lancamentos_da_conta d' c = lancamentos_da_conta d c ++
    [mk_lancamento (seq_lancamentos d + 1) "DESPESA" desc valor dt (Some dt) (conta_id c) None cat
       (Some "Transferência"%string) (Some "Pago"%string) None]).
  { unfold lancamentos_da_conta. rewrite Hl, filter_app. cbn [filter lanc_conta_id].
    now rewrite Z.eqb_refl. }
  unfold saldo_conta_real, find_conta in *. rewrite Hk, Hc, Hf.
  unfold receitas_liquidadas, despesas_liquidadas.
  set (nl := mk_lancamento _ _ _ _ _ _ _ _ _ _ _ _).
  assert (R : receita_liquidada nl = false) by reflexivity.
  assert (D : despesa_liquidada nl = true) by reflexivity.
  rewrite !map_app, !sum_cents_app. cbn [map]. rewrite R, D.
  unfold sum_cents at 2 4. cbn [fold_right lanc_valor nl]. do 2 f_equal; f_equal; lia.
Qed.

(** X5: the header's next statement is one of the statements, is ABERTA or FECHADA with an existing account, and has the smallest due date among such statements; when there is none, no statement qualifies. *)
Theorem proxima_fatura_spec d :
  match proxima_fatura d with
  | Some f => In f (faturas d) /\ a_pagar d f = true /\
      forall g, In g (faturas d) -> a_pagar d g = true ->
        fat_dt_vencimento f <= fat_dt_vencimento g
  | None => forall g, In g (faturas d) -> a_pagar d g = false
  end.
Proof.
  unfold proxima_fatura.
  destruct (filter (a_pagar d) (faturas d)) as [|h t] eqn:E.
  - intros g Hg. destruct (a_pagar d g) eqn:Eg; [|reflexivity].
    assert (In g (filter (a_pagar d) (faturas d))) by (apply filter_In; auto).
    rewrite E in H. destruct H.
  - simpl. destruct (fold_venc_some t h) as (f & -> & Hin & Hmin).
    assert (Hf : In f (filter (a_pagar d) (faturas d))).
    { rewrite E. destruct Hin as [->|Hin]; [left; reflexivity|right; exact Hin]. }
    apply filter_In in Hf as [Hf1 Hf2]. split; [exact Hf1|split; [exact Hf2|]].
    intros g Hg Hag. apply Hmin.
    assert (Hg' : In g (filter (a_pagar d) (faturas d))) by (apply filter_In; auto).
    rewrite E in Hg'. destruct Hg' as [->|Hg']; [left|right]; auto.
Qed.

(** X6: deleting a statement changes the database only when no transaction and no payment refers to it and the confirmation box is checked; then exactly the rows with that id are removed. *)
Theorem fat_excluir_run d fid confirm :
  run d (snd (fat_excluir d fid confirm)) =
  if existsb (fun l => opt_Zeqb (lanc_fatura_id l) fid) (lancamentos d)
     || existsb (fun p => pag_fatura_id p =? fid) (pagamentos_fatura d) || negb confirm
  then d
  else set_faturas d (filter (fun f => negb (fat_id f =? fid)) (faturas d)) (seq_faturas d).
Proof.
  unfold fat_excluir.
  destruct (existsb (fun l => opt_Zeqb (lanc_fatura_id l) fid) (lancamentos d)) eqn:El.
  - assert (Hq : (0 < List.length (filter (fun l => opt_Zeqb (lanc_fatura_id l) fid)
                                             (lancamentos d)))%nat).
    { apply existsb_exists in El as (l & Hin & Hl).
      destruct (filter _ _) as [|x r] eqn:F; [|simpl; lia].
      assert (In l (filter (fun l => opt_Zeqb (lanc_fatura_id l) fid) (lancamentos d)))
        by (apply filter_In; auto).
      rewrite F in H. destruct H. }
    rewrite (proj2 (Z.ltb_lt 0 _)) by lia. reflexivity.
  - assert (Hq : filter (fun l => opt_Zeqb (lanc_fatura_id l) fid) (lancamentos d) = []).
    { destruct (filter _ _) as [|x r] eqn:F; [reflexivity|].
      assert (Hx : In x (filter (fun l => opt_Zeqb (lanc_fatura_id l) fid) (lancamentos d)))
        by (rewrite F; left; reflexivity).
      apply filter_In in Hx as [Hx1 Hx2].
      assert (existsb (fun l => opt_Zeqb (lanc_fatura_id l) fid) (lancamentos d) = true)
        by (apply existsb_exists; eauto).
      congruence. }
    rewrite Hq. simpl orb. destruct confirm; simpl.
    + rewrite run_one. unfold delete_fatura. rewrite El. simpl orb.
      destruct (existsb (fun p => pag_fatura_id p =? fid) (pagamentos_fatura d)); reflexivity.
    + destruct (existsb (fun p => pag_fatura_id p =? fid) (pagamentos_fatura d)); reflexivity.
Qed.

Import Examples.

Lemma pagar_total_fatura_witness :
  exists d', pagar_txn 2 1 None "Pagamento fatura" 50 1000 db_faturas = Some d' /\
    total_fatura d' 2 = total_fatura db_faturas 2.
Proof.
  destruct (pagar_txn 2 1 None "Pagamento fatura" 50 1000 db_faturas) as [d'|] eqn:H.
  - exists d'. split; [reflexivity|]. exact (pagar_total_fatura _ _ _ _ _ _ _ _ H 2).
  - vm_compute in H. discriminate H.
Defined.

Lemma pagar_saldo_conta_witness :
  find_conta db_faturas "Cora" = Some conta_cora /\
  exists d', pagar_txn 2 (conta_id conta_cora) None "Pagamento fatura" 50 1000 db_faturas
             = Some d' /\
    saldo_conta_real d' "Cora" =
    Binary64.sub
      (Binary64.add (Binary64.of_cents (conta_saldo_inicial conta_cora))
                    (Binary64.of_cents (receitas_liquidadas db_faturas conta_cora)))
      (Binary64.of_cents (despesas_liquidadas db_faturas conta_cora + 1000)).
Proof.
  assert (Hc : find_conta db_faturas "Cora" = Some conta_cora) by reflexivity.
  split; [exact Hc|].
  destruct (pagar_txn 2 (conta_id conta_cora) None "Pagamento fatura" 50 1000 db_faturas)
    as [d'|] eqn:H.
  - exists d'. split; [reflexivity|]. exact (pagar_saldo_conta _ _ _ _ _ _ _ _ _ Hc H).
  - vm_compute in H. discriminate H.
Defined.

End PagesExtras.

Module IdsFacts.
Import Codec CodecFacts LoginFacts.

Lemma join_app_head sep a y m : join sep ((a ++ y) :: m) = a ++ join sep (y :: m).
Proof. destruct m; [reflexivity|]. cbn [join]. now rewrite <- !app_assoc. Qed.

Lemma join_sep_cons c s x xs : join (c :: s) (x :: xs) = join [c] (x :: map (app s) xs).
Proof.
  revert x. induction xs as [|y ys IH]; intros x; [reflexivity|].
  rewrite (join_cons (c :: s) x (y :: ys)) by discriminate. rewrite IH. cbn [map].
  rewrite (join_cons [c] x ((s ++ y) :: map (app s) ys)) by discriminate. rewrite join_app_head. reflexivity.
Qed.

Lemma digits_ok n : 0 <= n ->
  ~ In ","%char (digits n) /\ strip (digits n) = digits n /\ isdigit (digits n) = true.
Proof.
  intros Hn. destruct (digits_spec n Hn) as (Hne & Hall & _).
  assert (Hsp : Forall (fun c => is_space c = false) (digits n)).
  { eapply Forall_impl; [|exact Hall]. intros c Hc. apply (digit_facts c Hc). }
  split; [|split].
  - intros Hin. rewrite Forall_forall in Hall. specialize (Hall _ Hin).
    destruct (digit_facts _ Hall) as (_ & _ & _ & E & _). discriminate E.
  - apply strip_id, Hsp.
  - unfold isdigit. destruct (digits n) as [|c r]; [congruence|].
    apply forallb_forall. rewrite Forall_forall in Hall. exact Hall.
Qed.

Lemma strip_space_digits n : 0 <= n -> strip ([" "%char] ++ digits n) = digits n.
Proof.
  intros Hn. destruct (digits_ok n Hn) as (_ & H & _).
  change (strip ([" "%char] ++ digits n)) with (strip (digits n)). exact H.
Qed.

Lemma tail_ids ns : Forall (fun n => 0 <= n) ns ->
  map digits_value (filter isdigit (map strip (map (app [" "%char]) (map digits ns)))) = ns.
Proof.
  induction 1 as [|n ns Hn _ IH]; [reflexivity|]. cbn [map].
  rewrite (strip_space_digits n Hn). cbn [filter].
  destruct (digits_ok n Hn) as (_ & _ & ->). cbn [map]. rewrite IH.
  destruct (digits_spec n Hn) as (_ & _ & ->). reflexivity.
Qed.

End IdsFacts.

Module IdsExtras.
Import Codec CodecFacts Ledger Pages IdsFacts LoginFacts.

(** X7: the ID list of the batch settlement parses back the ids written as decimal digits and joined by ', '. *)
Theorem parse_ids_roundtrip ns : Forall (fun n => 0 <= n) ns ->
  parse_ids (join [","%char; " "%char] (map digits ns)) = ns.
Proof.
  intros H. destruct H as [|n ns Hn Hns]; [reflexivity|].
  unfold parse_ids. cbn [map]. rewrite join_sep_cons, split_join.
  - cbn [map]. destruct (digits_ok n Hn) as (_ & -> & Hd).
    cbn [filter]. rewrite Hd. cbn [map].
    destruct (digits_spec n Hn) as (_ & _ & ->). f_equal. apply tail_ids, Hns.
  - constructor; [apply (digits_ok n Hn)|].
    rewrite Forall_map, Forall_map. eapply Forall_impl; [|exact Hns].
    intros x Hx [E|Hin]; [discriminate E|]. apply (digits_ok x Hx), Hin.
  - discriminate.
Qed.


Import Examples.

Lemma parse_ids_roundtrip_witness :
  Forall (fun n => 0 <= n) [12; 7; 3] /\
  parse_ids (join [","%char; " "%char] (map digits [12; 7; 3])) = [12; 7; 3].
Proof.
  assert (H : Forall (fun n => 0 <= n) [12; 7; 3]) by (repeat constructor; lia).
  split; [exact H|]. exact (parse_ids_roundtrip _ H).
Defined.


End IdsExtras.

Module TablesFacts.
Import Ledger Pages PagesFacts.

Lemma NoDup_snoc {A} (l : list A) x : NoDup l -> ~ In x l -> NoDup (l ++ [x]).
Proof.
  induction 1 as [|y l Hy Hl IH]; intros Hx; simpl; [repeat constructor; auto|].
  constructor.
  - intros Hin. apply in_app_or in Hin as [Hin|[<-|[]]]; [contradiction|].
    apply Hx. left. reflexivity.
  - apply IH. intros Hin. apply Hx. right. exact Hin.
Qed.

Lemma existsb_name_false {A} (f : A -> string) l x :
  existsb (fun y => String.eqb (f y) x) l = false -> ~ In x (map f l).
Proof.
  intros E Hin. apply in_map_iff in Hin as (y & <- & Hy).
  assert (existsb (fun z => String.eqb (f z) (f y)) l = true)
    by (apply existsb_exists; exists y; split; [exact Hy|apply String.eqb_refl]).
  congruence.
Qed.

Lemma existsb_name_true {A} (f : A -> string) l x :
  In x (map f l) -> existsb (fun y => String.eqb (f y) x) l = true.
Proof.
  intros Hin. apply in_map_iff in Hin as (y & <- & Hy).
  apply existsb_exists. exists y. split; [exact Hy|apply String.eqb_refl].
Qed.

Lemma count_occ_map_filter {A} (f : A -> string) l x :
  count_occ string_dec (map f l) x = List.length (filter (fun y => String.eqb (f y) x) l).
Proof.
  induction l as [|y l IH]; [reflexivity|]. simpl.
  destruct (string_dec (f y) x) as [E|E];
    [rewrite (proj2 (String.eqb_eq _ _) E)|rewrite (proj2 (String.eqb_neq _ _) E)];
    simpl; rewrite IH; reflexivity.
Qed.

Lemma update_categoria_nodup nome ativo cid d d' :
  NoDup (map categoria_nome (categorias d)) ->
  update_categoria nome ativo cid d = Some d' -> NoDup (map categoria_nome (categorias d')).
Proof.
  intros Hd. unfold update_categoria.
  set (upd := fun c => if categoria_id c =? cid then mk_categoria (categoria_id c) nome ativo
                       else c).
  destruct (existsb (fun c => categoria_id c =? cid) (categorias d)) eqn:Ex.
  - destruct (Nat.ltb_spec 1 (List.length (filter (fun c => String.eqb (categoria_nome c) nome)
                                      (map upd (categorias d))))) as [Hc|Hc];
      [discriminate|].
    intros H; injection H as <-. cbn [categorias set_categorias].
    apply (NoDup_count_occ string_dec). intros x.
    destruct (string_dec x nome) as [->|Hx].
    + rewrite count_occ_map_filter. exact Hc.
    + apply (proj1 (NoDup_count_occ string_dec _)) with (x := x) in Hd.
      eapply Nat.le_trans; [|exact Hd]. clear Hd Hc Ex.
      induction (categorias d) as [|c cs IH]; [simpl; lia|]. cbn [map].
      unfold upd at 1. destruct (categoria_id c =? cid).
      * cbn [categoria_nome]. simpl count_occ at 1.
        destruct (string_dec nome x) as [E|_]; [congruence|].
        simpl. destruct (string_dec (categoria_nome c) x); lia.
      * simpl. destruct (string_dec (categoria_nome c) x); lia.
  - simpl. intros H; injection H as <-. cbn [categorias set_categorias].
    rewrite map_ext_in with (g := fun c => c), map_id; [exact Hd|].
    intros c Hc. unfold upd. destruct (categoria_id c =? cid) eqn:E; [|reflexivity].
    assert (existsb (fun c => categoria_id c =? cid) (categorias d) = true)
      by (apply existsb_exists; eauto). congruence.
Qed.

Lemma exec_many_inv (P : db -> Prop) ts : forall d d',
  (forall t, In t ts -> forall x y, P x -> t x = Some y -> P y) ->
  P d -> exec_many ts d = Some d' -> P d'.
Proof.
  induction ts as [|t ts IH]; intros d d' Ht Hd H; simpl in H.
  - injection H as <-. exact Hd.
  - destruct (t d) as [d1|] eqn:E; [|discriminate].
    apply (IH d1 d'); [|apply (Ht t (or_introl eq_refl) d d1 Hd E)|exact H].
    intros t' Hin. apply Ht. right. exact Hin.
Qed.

(** Inserting rows appends them to [lancamentos], with consecutive ids. *)
Lemma insert_rows_effect rows : forall d d', insert_rows rows d = Some d' ->
  contas d' = contas d /\
  exists ids, List.length ids = List.length rows /\
    lancamentos d' = lancamentos d ++ map (fun p => fst p (snd p)) (combine rows ids).
Proof.
  induction rows as [|r rs IH]; intros d d' H; simpl in H.
  - injection H as <-. split; [reflexivity|]. exists []. rewrite app_nil_r. auto.
  - unfold insert_lancamento in H.
    destruct (negb (Numeric.fits_numeric2 (lanc_valor (r (seq_lancamentos d + 1)))));
      [discriminate|].
    destruct (lanc_valor (r (seq_lancamentos d + 1)) <? 0); [discriminate|].
    apply IH in H as (Hk & ids & Hlen & Hl). cbn [contas set_lancamentos lancamentos] in *.
    split; [exact Hk|]. exists (seq_lancamentos d + 1 :: ids).
    split; [simpl; lia|]. rewrite Hl, <- app_assoc. reflexivity.
Qed.

Lemma insert_rows_ok rows : forall d,
  (forall r id, In r rows -> 0 <= lanc_valor (r id) < 10 ^ 14) ->
  exists d', insert_rows rows d = Some d'.
Proof.
  induction rows as [|r rs IH]; intros d H; simpl; [eauto|].
  unfold insert_lancamento, Numeric.fits_numeric2.
  destruct (H r (seq_lancamentos d + 1) (or_introl eq_refl)) as [H0 H1].
  rewrite (proj2 (Z.ltb_lt (Z.abs _) _)) by lia. cbn [negb].
  rewrite (proj2 (Z.ltb_ge _ _)) by exact H0.
  apply IH. intros r' id Hr. apply H. right. exact Hr.
Qed.

Lemma in_combine_map {B C} (l : list (B -> C)) (m : list B) (P : C -> Prop) :
  (forall a b, In a l -> P (a b)) -> Forall P (map (fun p => fst p (snd p)) (combine l m)).
Proof.
  intros H. apply Forall_forall. intros x Hx. apply in_map_iff in Hx as ([a b] & <- & Hab).
  apply H. apply (in_combine_l _ _ _ _ Hab).
Qed.

Lemma Forall_filter' {A} (P : A -> Prop) (f : A -> bool) l :
  Forall P l -> Forall P (filter f l).
Proof.
  rewrite !Forall_forall. intros H x Hx. apply filter_In in Hx as [Hx _]. exact (H x Hx).
Qed.

Lemma filter_all_Forall {A} (f : A -> bool) l : Forall (fun x => f x = true) l -> filter f l = l.
Proof. induction 1 as [|x l Hx _ IH]; [reflexivity|]. cbn [filter]. rewrite Hx, IH. reflexivity. Qed.

Lemma sum_zero (p : lancamento -> bool) l : Forall (fun x => p x = false) l ->
  sum_cents (map (fun x => if p x then lanc_valor x else 0) l) = 0.
Proof. induction 1 as [|x l Hx _ IH]; [reflexivity|]. simpl. rewrite Hx, IH. reflexivity. Qed.

Lemma sum_const l v : Forall (fun x => lanc_valor x = v) l ->
  sum_cents (map lanc_valor l) = Z.of_nat (List.length l) * v.
Proof.
  induction 1 as [|x l Hx _ IH]; [reflexivity|].
  change (sum_cents (map lanc_valor (x :: l))) with (lanc_valor x + sum_cents (map lanc_valor l)).
  rewrite Hx, IH. cbn [List.length]. lia.
Qed.

Lemma lote_rows_shape n desc dt v conta cat r id :
  In r (map (fun i => fun id =>
          mk_lancamento id "RECEITA"
            (string_of_list_ascii (Codec.strip desc) ++ " #" ++ z_to_string (Z.of_nat i + 1))
            v dt None conta None
            (match cat with Some 0 | None => None | Some c => Some c end)
            None (Some "Pendente"%string) None) (List.seq 0 n)) ->
  lanc_tipo (r id) = "RECEITA"%string /\ lanc_dt_liquidacao (r id) = None /\
  lanc_status (r id) = Some "Pendente"%string /\ lanc_conta_id (r id) = conta /\
  lanc_valor (r id) = v.
Proof. intros Hr. apply in_map_iff in Hr as (i & <- & _). repeat split. Qed.

End TablesFacts.

Module TablesExtras.
Import Ledger Pages PagesFacts TablesFacts.

(** X9: adding an account keeps account names pairwise distinct, and adding a stripped name that already exists leaves the database unchanged. *)
Theorem conta_add_nomes d nid nome tipo saldo :
  NoDup (map conta_nome (contas d)) ->
  NoDup (map conta_nome (contas (run d (snd (conta_add nid nome tipo saldo))))) /\
  (In (string_of_list_ascii (Codec.strip nome)) (map conta_nome (contas d)) ->
   run d (snd (conta_add nid nome tipo saldo)) = d).
Proof.
  intros Hd. unfold conta_add.
  destruct (Codec.strip nome) as [|x r] eqn:Es; [split; [exact Hd|reflexivity]|].
  cbn [snd]. rewrite run_one. unfold insert_conta.
  cbn [conta_nome conta_id conta_tipo conta_saldo_inicial].
  destruct (negb (Numeric.fits_numeric2 _)); [split; [exact Hd|reflexivity]|].
  destruct (negb (_ || _)); [split; [exact Hd|reflexivity]|].
  destruct (existsb (fun x0 => String.eqb (conta_nome x0) (string_of_list_ascii (x :: r)))
              (contas d)) eqn:E1; [split; [exact Hd|reflexivity]|].
  split.
  - destruct (existsb (fun x => conta_id x =? nid) (contas d)); [exact Hd|].
    cbn [contas set_contas]. rewrite map_app. apply NoDup_snoc; [exact Hd|].
    apply existsb_name_false, E1.
  - intros Hin. apply existsb_name_true in Hin. congruence.
Qed.

(** X10: adding a category and saving the edited category table both keep category names pairwise distinct. *)
Theorem categorias_nomes d nid nova rows :
  NoDup (map categoria_nome (categorias d)) ->
  NoDup (map categoria_nome (categorias (run d (snd (categoria_add nid nova))))) /\
  NoDup (map categoria_nome (categorias (run d (snd (categorias_save rows))))).
Proof.
  intros Hd. split.
  - unfold categoria_add. destruct (Codec.strip nova) as [|x r]; [exact Hd|].
    cbn [snd]. rewrite run_one. unfold insert_categoria. cbn [categoria_nome categoria_id].
    destruct (existsb (fun c => String.eqb (categoria_nome c) (string_of_list_ascii (x :: r)))
                (categorias d)) eqn:E1; [exact Hd|].
    destruct (existsb (fun x => categoria_id x =? nid) (categorias d)); [exact Hd|].
    cbn [categorias set_categorias]. rewrite map_app. apply NoDup_snoc; [exact Hd|].
    apply existsb_name_false, E1.
  - unfold categorias_save. cbn [snd]. rewrite run_one.
    destruct (exec_many _ d) as [d'|] eqn:E; [|exact Hd].
    refine (exec_many_inv (fun x => NoDup (map categoria_nome (categorias x))) _ d d' _ Hd E).
    intros t Ht x y Hx Hy. apply in_map_iff in Ht as ([[nome ativo] cid] & <- & _).
    exact (update_categoria_nodup _ _ _ _ _ Hx Hy).
Qed.

(** X11: generating a batch of pending incomes does not change [saldo_conta_real] of any account. *)
Theorem lote_receitas_saldo d n desc dt v_txt conta_sel cat nome :
  saldo_conta_real (run d (snd (lote_receitas n desc dt v_txt conta_sel cat))) nome
  = saldo_conta_real d nome.
Proof.
  unfold lote_receitas.
  destruct (Qle_bool (Codec.parse_brl (Codec.PyStr v_txt)) 0); [reflexivity|].
  cbn [snd]. rewrite run_one.
  destruct (insert_rows _ d) as [d'|] eqn:E; [|reflexivity].
  apply insert_rows_effect in E as (Hk & ids & _ & Hl).
  unfold saldo_conta_real, find_conta. rewrite Hk.
  destruct (find _ (contas d)) as [c|]; [|reflexivity].
  unfold lancamentos_da_conta. rewrite Hl, filter_app, !map_app, !sum_cents_app.
  rewrite (sum_zero receita_liquidada (filter _ (map _ (combine _ ids)))),
    (sum_zero despesa_liquidada (filter _ (map _ (combine _ ids)))), !Z.add_0_r;
    [reflexivity|..];
    (apply Forall_filter'; apply in_combine_map; intros r id Hr;
     apply in_map_iff in Hr as (i & <- & _); reflexivity).
Qed.

(** X12: generating [n] pending incomes of a positive value [v], whose amount in cents fits NUMERIC(14,2), into the account found by name raises its forecast of incomes ([previsao_receber_conta]) by [n] times [v] in cents. *)
Theorem lote_receitas_previsao d n desc dt v_txt conta_sel cat nome c :
  find_conta d nome = Some c -> conta_id c = conta_sel -> 0 <= n ->
  Qle_bool (Codec.parse_brl (Codec.PyStr v_txt)) 0 = false ->
  Numeric.to_numeric2 (Codec.parse_brl (Codec.PyStr v_txt)) < 10 ^ 14 ->
  previsao_receber_conta (run d (snd (lote_receitas n desc dt v_txt conta_sel cat))) nome
  = Binary64.of_cents
      (sum_cents (map lanc_valor
         (filter (fun l => String.eqb (lanc_tipo l) "RECEITA"
                           && ilike (status_or_pendente l) "pendente")
            (lancamentos_da_conta d c)))
       + n * Numeric.to_numeric2 (Codec.parse_brl (Codec.PyStr v_txt))).
Proof.
  intros Hc Hid Hn Hv Hfit. unfold lote_receitas. rewrite Hv. cbn [snd]. rewrite run_one.
  set (v0 := Numeric.to_numeric2 (Codec.parse_brl (Codec.PyStr v_txt))).
  assert (Hv0 : 0 <= v0) by (apply BoletoFacts.to_numeric2_nonneg, BoletoFacts2.qle_false_pos, Hv).
  destruct (insert_rows_ok
              (map (fun i => fun id =>
                 mk_lancamento id "RECEITA"
                   (string_of_list_ascii (Codec.strip desc) ++ " #"
                    ++ z_to_string (Z.of_nat i + 1))
                   v0 dt None conta_sel None
                   (match cat with Some 0 | None => None | Some c => Some c end)
                   None (Some "Pendente"%string) None) (List.seq 0 (Z.to_nat n))) d)
    as [d' E].
  { intros r id Hr. destruct (lote_rows_shape _ _ _ _ _ _ r id Hr) as (_ & _ & _ & _ & ->).
    split; [exact Hv0|exact Hfit]. }
  rewrite E. apply insert_rows_effect in E as (Hk & ids & Hlen & Hl).
  unfold previsao_receber_conta, previsao_tipo, find_conta in *. rewrite Hk, Hc.
  unfold lancamentos_da_conta. rewrite Hl, !filter_app, map_app, sum_cents_app.
  f_equal. f_equal.
  set (new := map _ (combine _ ids)).
  assert (Hnew : Forall (fun l => lanc_tipo l = "RECEITA"%string /\ lanc_status l = Some "Pendente"%string
                                  /\ lanc_conta_id l = conta_sel /\ lanc_valor l = v0) new).
  { apply in_combine_map. intros r id Hr.
    destruct (lote_rows_shape _ _ _ _ _ _ r id Hr) as (? & _ & ? & ? & ?). auto. }
  rewrite (filter_all_Forall (fun l => lanc_conta_id l =? conta_id c) new),
    (filter_all_Forall (fun l => String.eqb (lanc_tipo l) "RECEITA"
                          && ilike (status_or_pendente l) "pendente") new).
  - rewrite (sum_const _ v0).
    + unfold new. rewrite length_map, length_combine, Hlen, length_map, length_seq.
      rewrite Nat.min_id, Z2Nat.id by lia. lia.
    + eapply Forall_impl; [|exact Hnew]. intros l (_ & _ & _ & H); exact H.
  - eapply Forall_impl; [|exact Hnew]. intros l (Ht & Hs & _ & _).
    unfold status_or_pendente. rewrite Ht, Hs. reflexivity.
  - eapply Forall_impl; [|exact Hnew]. intros l (_ & _ & Hc' & _).
    rewrite Hc', Hid. apply Z.eqb_refl.
Qed.

Import Examples.

Lemma conta_add_nomes_witness :
  NoDup (map conta_nome (contas db_faturas)) /\
  NoDup (map conta_nome (contas (run db_faturas
           (snd (conta_add 3 (list_ascii_of_string " Nubank ") "CONTA" (list_ascii_of_string "0,00")))))) /\
  run db_faturas (snd (conta_add 3 (list_ascii_of_string " Cora") "CONTA" (list_ascii_of_string "5,00")))
  = db_faturas.
Proof.
  assert (H : NoDup (map conta_nome (contas db_faturas))).
  { repeat constructor; cbn; intuition discriminate. }
  split; [exact H|split].
  - exact (proj1 (conta_add_nomes _ 3 (list_ascii_of_string " Nubank ") "CONTA" _ H)).
  - apply (proj2 (conta_add_nomes _ 3 (list_ascii_of_string " Cora") "CONTA" _ H)).
    vm_compute. left. reflexivity.
Defined.

Lemma categorias_nomes_witness :
  NoDup (map categoria_nome (categorias db_categorias)) /\
  NoDup (map categoria_nome (categorias (run db_categorias
           (snd (categoria_add 3 (list_ascii_of_string "Mercado")))))) /\
  NoDup (map categoria_nome (categorias (run db_categorias
           (snd (categorias_save [("Casa"%string, true, 2); ("Viagem"%string, true, 1)]))))).
Proof.
  assert (H : NoDup (map categoria_nome (categorias db_categorias))).
  { repeat constructor; cbn; intuition discriminate. }
  split; [exact H|].
  exact (categorias_nomes _ 3 (list_ascii_of_string "Mercado")
           [("Casa"%string, true, 2); ("Viagem"%string, true, 1)] H).
Defined.

Lemma lote_receitas_previsao_witness :
  find_conta db_saldo "Banco" = Some conta_banco /\ conta_id conta_banco = 1 /\ 0 <= 2 /\
  Qle_bool (Codec.parse_brl (Codec.PyStr (list_ascii_of_string "10,00"))) 0 = false /\
  Numeric.to_numeric2 (Codec.parse_brl (Codec.PyStr (list_ascii_of_string "10,00"))) < 10 ^ 14 /\
  previsao_receber_conta
    (run db_saldo (snd (lote_receitas 2 (list_ascii_of_string "Aluguel") 150
                          (list_ascii_of_string "10,00") 1 None))) "Banco"
  = Binary64.of_cents
      (sum_cents (map lanc_valor
         (filter (fun l => String.eqb (lanc_tipo l) "RECEITA"
                           && ilike (status_or_pendente l) "pendente")
            (lancamentos_da_conta db_saldo conta_banco)))
       + 2 * Numeric.to_numeric2 (Codec.parse_brl (Codec.PyStr (list_ascii_of_string "10,00")))).
Proof.
  assert (H1 : find_conta db_saldo "Banco" = Some conta_banco) by reflexivity.
  assert (H2 : conta_id conta_banco = 1) by reflexivity.
  assert (H3 : 0 <= 2) by lia.
  assert (H4 : Qle_bool (Codec.parse_brl (Codec.PyStr (list_ascii_of_string "10,00"))) 0 = false)
    by (vm_compute; reflexivity).
  assert (H5 : Numeric.to_numeric2 (Codec.parse_brl (Codec.PyStr (list_ascii_of_string "10,00")))
               < 10 ^ 14) by (vm_compute; reflexivity).
  split; [exact H1|split; [exact H2|split; [exact H3|split; [exact H4|split; [exact H5|]]]]].
  exact (lote_receitas_previsao _ 2 (list_ascii_of_string "Aluguel") 150 _ 1 None _ _
           H1 H2 H3 H4 H5).
Defined.

End TablesExtras.

Module PreviaExtras.
Import Ledger Pages.

(** X13: for a card expense, the preview refuses the first statement option (choice 0, value 0) and reports that a statement must be selected. *)
Theorem gerar_previa_primeira_fatura d f :
  cartao_despesa f = true -> pf_choice f = 0%nat ->
  exists erros, gerar_previa d f = inl erros /\
    In "Selecione uma fatura para compras no cartão."%string erros.
Proof.
  intros Hc H0.
  assert (Hfid : match previa_fatura_id d f with None => true | Some z => z =? 0 end = true).
  { unfold previa_fatura_id, previa_opts. rewrite Hc, H0.
    destruct (list_faturas d (pf_conta_id f)); reflexivity. }
  unfold gerar_previa. cbv zeta. rewrite Hc, Hfid. cbn [andb].
  match goal with
  |- exists e, match ?E with [] => _ | _ :: _ => _ end = _ /\ _ => destruct E as [|x xs] eqn:Ee
  end.
  - apply app_eq_nil in Ee as [_ Ee]. apply app_eq_nil in Ee as [_ Ee].
    apply app_eq_nil in Ee as [_ Ee]. discriminate.
  - exists (x :: xs). split; [reflexivity|]. rewrite <- Ee, !in_app_iff. right; right; right. left. reflexivity.
Qed.

(** X14: when the preview succeeds, its rows do not depend on the statement chosen in the select box: each installment's statement is suggested from its date. *)
Theorem gerar_previa_choice d f c rows rows' :
  gerar_previa d f = inr rows -> gerar_previa d (with_choice f c) = inr rows' -> rows = rows'.
Proof.
  intros H1 H2. unfold gerar_previa in H1, H2. cbv zeta in H1, H2. unfold with_choice in H2.
  cbn [pf_tipo_l pf_conta_id pf_conta_tipo pf_dt_comp pf_parcelas pf_desc pf_cat_id pf_forma
       pf_status pf_modo_valor pf_valor_txt pf_dt_liq] in H2.
  match type of H1 with
  | match ?E with [] => _ | _ :: _ => _ end = _ => destruct E; [|discriminate]
  end.
  match type of H2 with
  | match ?E with [] => _ | _ :: _ => _ end = _ => destruct E; [|discriminate]
  end.
  injection H1 as <-. injection H2 as <-. unfold cartao_despesa. reflexivity.
Qed.

Import Examples.

Lemma gerar_previa_primeira_fatura_witness :
  cartao_despesa (wp_form 0) = true /\ pf_choice (wp_form 0) = 0%nat /\
  exists erros, gerar_previa db_faturas (wp_form 0) = inl erros /\
    In "Selecione uma fatura para compras no cartão."%string erros.
Proof.
  assert (H1 : cartao_despesa (wp_form 0) = true) by reflexivity.
  assert (H2 : pf_choice (wp_form 0) = 0%nat) by reflexivity.
  split; [exact H1|split; [exact H2|]].
  exact (gerar_previa_primeira_fatura db_faturas _ H1 H2).
Defined.

Lemma gerar_previa_choice_witness :
  exists rows rows', gerar_previa db_faturas (wp_form 1) = inr rows /\
    gerar_previa db_faturas (with_choice (wp_form 1) 2) = inr rows' /\ rows = rows'.
Proof.
  destruct (gerar_previa db_faturas (wp_form 1)) as [e|rows] eqn:H1;
    [vm_compute in H1; discriminate H1|].
  destruct (gerar_previa db_faturas (with_choice (wp_form 1) 2)) as [e|rows'] eqn:H2;
    [vm_compute in H2; discriminate H2|].
  exists rows, rows'. split; [reflexivity|split; [reflexivity|]].
  exact (gerar_previa_choice _ _ _ _ _ H1 H2).
Defined.

End PreviaExtras.
